(** * PaperPal Translator: selection capture, retry policy and history pipeline

    A shallow embedding of the TypeScript sources
      - [src/services/geminiService.ts] and its later revision
        [src/unnamed/part_000] (retry helper, provider calls, live session),
      - [src/components/PDFViewer.tsx] (box capture),
      - [src/components/TranslationPanel.tsx] (history pipeline),
      - [src/components/LiveAssistant.tsx] (owner of the live session),
    followed by the properties the specification states about them.

    Conventions.  A JavaScript [number] that only ever holds an integer
    (ids, timestamps, delays, status codes) is a [Z]; the retry budget,
    which counts down from its default by one, is a [nat].  Pointer and
    layout coordinates are doubles: [float], with the IEEE 754 binary64
    operations and comparisons of JavaScript.
    A string is the sequence of its UTF-8 bytes.
    A promise is its settlement: [Resolved v] or [Rejected e].  The external
    provider is a state [P] threaded through every call; timer waits and
    operation invocations are recorded, in order, in a trace.  Console
    output is not part of the model. *)

From Stdlib Require Import List ZArith Floats String Ascii Bool Lia Arith.
Import ListNotations.
Local Open Scope string_scope.
Local Open Scope list_scope.
Local Open Scope Z_scope.

Set Implicit Arguments.

(* ------------------------------------------------------------------ *)
(** * JavaScript values used by the sources *)
(* ------------------------------------------------------------------ *)

Module Js.

(** The line feed character. *)
Definition LF : ascii := "010"%char.

(** [s.slice(n)]: [s] without its first [n] characters. *)
Fixpoint drop (n : nat) (s : string) : string :=
  match n, s with
  | O, _ => s
  | S n', String _ s' => drop n' s'
  | S _, EmptyString => EmptyString
  end.

(** [String.prototype.startsWith]. *)
Fixpoint startsWith (s sub : string) : bool :=
  match sub, s with
  | EmptyString, _ => true
  | String c sub', String d s' => Ascii.eqb c d && startsWith s' sub'
  | String _ _, EmptyString => false
  end.

(** [String.prototype.includes]: [sub] occurs somewhere in [s]. *)
Fixpoint includes (s sub : string) : bool :=
  startsWith s sub ||
  match s with
  | EmptyString => false
  | String _ s' => includes s' sub
  end.

(** [sub] is a substring of [s]. *)
Definition occursIn (sub s : string) : Prop :=
  exists before after, s = (before ++ sub ++ after)%string.

(** Truthiness of a string-or-undefined value: [undefined] and [''] are
    falsy. *)
Definition truthy (v : option string) : bool :=
  match v with
  | Some s => negb (String.eqb s "")
  | None => false
  end.

(** [v || fallback] for a string-or-undefined [v]. *)
Definition orElse (v : option string) (fallback : string) : string :=
  match v with
  | Some s => if String.eqb s "" then fallback else s
  | None => fallback
  end.

(** A thrown value, as far as the sources inspect it: [error.message]
    (a string or absent) and [error.status] (a number or absent). *)
Record Error : Type := mkError {
  message : option string;
  status : option Z
}.

(** [new Error(msg)]. *)
Definition newError (msg : string) : Error := mkError (Some msg) None.

(** [error.message?.includes(marker)]; [undefined] is falsy. *)
Definition messageIncludes (e : Error) (marker : string) : bool :=
  match message e with
  | Some m => includes m marker
  | None => false
  end.

(** [error.status === 429] and the like. *)
Definition statusIs (e : Error) (code : Z) : bool :=
  match status e with
  | Some c => Z.eqb c code
  | None => false
  end.

(** The settlement of a promise. *)
Inductive Outcome (A : Type) : Type :=
| Resolved (a : A)
| Rejected (e : Error).

Arguments Resolved {A} a.
Arguments Rejected {A} e.

(** A value that [JSON.parse] returns; an object is the list of its own
    properties, each key once. *)
Unset Elimination Schemes.
Inductive Json : Type :=
| JNull
| JBool (b : bool)
| JNumber (n : float)
| JString (s : string)
| JArray (items : list Json)
| JObject (fields : list (string * Json)).
Set Elimination Schemes.

(** What a slot that TypeScript declares [string] holds at run time: a
    string, or whatever else was assigned to it ([Other None] is
    [undefined]). *)
Inductive Text : Type :=
| Str (s : string)
| Other (v : option Json).

Coercion Str : string >-> Text.

Fixpoint lookup (name : string) (fields : list (string * Json)) : option Json :=
  match fields with
  | [] => None
  | (key, v) :: rest => if String.eqb key name then Some v else lookup name rest
  end.

(** [v.name] for a parsed value [v] and a [name] that no prototype
    defines: the property of an object, [undefined] ([Some None]) on a
    string, number, boolean or array; on [null] the read throws ([None]). *)
Definition getProperty (v : Json) (name : string) : option (option Json) :=
  match v with
  | JNull => None
  | JObject fields => Some (lookup name fields)
  | JBool _ | JNumber _ | JString _ | JArray _ => Some None
  end.

(** The value read from a property, as the content of a [string] slot. *)
Definition textOfValue (v : option Json) : Text :=
  match v with
  | Some (JString s) => Str s
  | _ => Other v
  end.

(** The [TypeError] of reading [name] from [null] (in V8's wording). *)
Definition nullReadError (name : string) : Error :=
  newError ("Cannot read properties of null (reading '" ++ name ++ "')").

End Js.

Import Js.

(* ------------------------------------------------------------------ *)
(** * types.ts *)
(* ------------------------------------------------------------------ *)

Module Types.

(** The literal type ['image' | 'text']. *)
Inductive Kind : Type := image | text.

Module Selection.

Record SelectionData : Type := mkSelection {
  type : Kind;
  content : string;
  id : Z
}.

End Selection.

Record SearchSource : Type := mkSource {
  title : string;
  uri : string
}.

Record TranslationResult : Type := mkResult {
  id : Z;
  originalText : Text;
  translatedText : Text;
  type : Kind;
  imageUrl : option string;
  explanation : option string;
  searchSources : option (list SearchSource);
  timestamp : Z
}.

End Types.

(* ------------------------------------------------------------------ *)
(** * services/geminiService.ts *)
(* ------------------------------------------------------------------ *)

Module GeminiService.

(** What a caller of the service can observe besides the settlement:
    every [await operation()] and every [setTimeout] wait, in order. *)
Inductive event : Type :=
| Invoke
| Wait (ms : Z).

Definition waits (tr : list event) : list Z :=
  flat_map (fun ev => match ev with Wait ms => [ms] | Invoke => [] end) tr.

Definition invocations (tr : list event) : nat :=
  List.length (filter (fun ev => match ev with Invoke => true | Wait _ => false end) tr).

Definition totalWait (tr : list event) : Z := fold_right Z.add 0 (waits tr).

(** The check of the [catch] block of [retryOperation]:
    [error.message?.includes('429') || error.message?.includes('quota') ||
     error.message?.includes('exhausted') || error.status === 429]. *)
Definition isQuotaError (error : Error) : bool :=
  messageIncludes error "429" ||
  messageIncludes error "quota" ||
  messageIncludes error "exhausted" ||
  statusIs error 429.

Section Provider.

(** The state of the world behind the provider's API. *)
Variable P : Type.

(** A no-argument asynchronous operation [() => Promise<T>]. *)
Definition Op (T : Type) : Type := P -> Outcome T * P.

(** An asynchronous computation of the service: settlement, provider state
    afterwards and the trace it left. *)
Definition Async (T : Type) : Type := P -> Outcome T * P * list event.

Definition resolve {T} (v : T) : Async T := fun p => (Resolved v, p, []).

Definition reject {T} (e : Error) : Async T := fun p => (Rejected e, p, []).

Definition bind {A B} (m : Async A) (k : A -> Async B) : Async B :=
  fun p =>
    match m p with
    | (Resolved a, p1, t1) => let '(r, p2, t2) := k a p1 in (r, p2, t1 ++ t2)
    | (Rejected e, p1, t1) => (Rejected e, p1, t1)
    end.

(** [try { return await m } catch (error) { handler }]. *)
Definition tryCatch {T} (m : Async T) (handler : Error -> Async T) : Async T :=
  fun p =>
    match m p with
    | (Resolved v, p1, t1) => (Resolved v, p1, t1)
    | (Rejected e, p1, t1) => let '(r, p2, t2) := handler e p1 in (r, p2, t1 ++ t2)
    end.

(** [await operation()]. *)
Definition invoke {T} (operation : Op T) : Async T :=
  fun p => let '(r, p1) := operation p in (r, p1, [Invoke]).

(** [await new Promise(resolve => setTimeout(resolve, ms))]. *)
Definition sleep (ms : Z) : Async unit := fun p => (Resolved tt, p, [Wait ms]).

(** [retryOperation(operation, retries = 3, delay = 2000)].  The test
    [retries > 0] is the match on [retries]; the recursive call receives
    [retries - 1] and [delay * 2].  The two revisions of the service
    differ here only in what they print to the console. *)
Fixpoint retryOperation {T} (operation : Op T) (retries : nat) (delay : Z) : Async T :=
  tryCatch (invoke operation) (fun error =>
    match retries with
    | S retries' =>
        if isQuotaError error
        then bind (sleep delay) (fun _ => retryOperation operation retries' (delay * 2))
        else reject error
    | O => reject error
    end).

(** Projections of a finished run. *)
Definition settlement {T} (run : Outcome T * P * list event) : Outcome T := fst (fst run).
Definition stateAfter {T} (run : Outcome T * P * list event) : P := snd (fst run).
Definition trace {T} (run : Outcome T * P * list event) : list event := snd run.

(** A settlement the wrapper passes on without another attempt: a value,
    or a failure that is not a quota error. *)
Definition isFinal {T} (r : Outcome T) : bool :=
  match r with
  | Resolved _ => true
  | Rejected e => negb (isQuotaError e)
  end.

(** The default arguments of [retryOperation]. *)
Definition defaultRetries : nat := 3.
Definition defaultDelay : Z := 2000.

(** The settlements of the first [n] invocations of [operation] from the
    provider state [p], each invocation starting where the previous one
    ended. *)
Fixpoint outcomes {T} (operation : Op T) (n : nat) (p : P) : list (Outcome T) :=
  match n with
  | O => []
  | S n' => let '(r, p1) := operation p in r :: outcomes operation n' p1
  end.

End Provider.

(** ** The environment and the API key *)

(** The service exists in two revisions: [services/geminiService.ts] reads
    the key once from [process.env.API_KEY]; the later revision
    ([unnamed/part_000]) looks it up with [getApiKey()] on every call. *)
Inductive Revision : Type := ServiceTs | Part000.

Record Env : Type := mkEnv {
  VITE_API_KEY : option string;
  REACT_APP_API_KEY : option string;
  API_KEY : option string
}.

(** [getApiKey()] of the later revision: the first truthy of
    [import.meta.env.VITE_API_KEY], [process.env.REACT_APP_API_KEY] and
    [process.env.API_KEY], else ['']. *)
Definition getApiKey (env : Env) : string :=
  if truthy (VITE_API_KEY env) then orElse (VITE_API_KEY env) ""
  else if truthy (REACT_APP_API_KEY env) then orElse (REACT_APP_API_KEY env) ""
  else if truthy (API_KEY env) then orElse (API_KEY env) ""
  else "".

(** The key a service call uses: [process.env.API_KEY || ''] in
    [geminiService.ts], [getApiKey()] in the later revision. *)
Definition apiKey (rev : Revision) (env : Env) : string :=
  match rev with
  | ServiceTs => orElse (API_KEY env) ""
  | Part000 => getApiKey env
  end.

(** The error thrown by [if (!key) throw new Error(...)]. *)
Definition missingKey (rev : Revision) : Error :=
  match rev with
  | ServiceTs => newError "API Key missing"
  | Part000 => newError "API Key is missing. Please check VITE_API_KEY in settings."
  end.

(** ** Text helpers *)

(** Length of the match of [/```json\n?|\n?```/] at the start of [s], [0]
    when there is none.  The first alternative is tried first and its
    optional line feed is greedy. *)
Definition fenceMatch (s : string) : nat :=
  if startsWith s "```json" then
    (if startsWith (drop 7 s) (String LF "") then 8 else 7)%nat
  else if startsWith s (String LF "```") then 4%nat
  else if startsWith s "```" then 3%nat
  else 0%nat.

(** [text.replace(/```json\n?|\n?```/g, '')]: scan from the left, delete
    every match and resume after it; [skip] characters of a match are
    still to be deleted. *)
Fixpoint removeFences (skip : nat) (s : string) : string :=
  match s with
  | EmptyString => EmptyString
  | String c s' =>
      match skip with
      | S k => removeFences k s'
      | O =>
          match fenceMatch s with
          | S k => removeFences k s'
          | O => String c (removeFences 0 s')
          end
      end
  end.

(** Strings are held as UTF-8 bytes.  Length in bytes of the white space
    or line terminator character, as [trim()] understands them, at the
    start of [s]; [0] when [s] starts with anything else.  One byte: tab,
    line feed, vertical tab, form feed, carriage return, space.  Two:
    U+00A0.  Three: U+1680, U+2000 to U+200A, U+2028, U+2029, U+202F,
    U+205F, U+3000 and U+FEFF. *)
Definition spaceLength (s : string) : nat :=
  match s with
  | EmptyString => 0
  | String c s1 =>
      let n := nat_of_ascii c in
      if ((9 <=? n) && (n <=? 13) || (n =? 32))%nat then 1
      else
        match s1 with
        | EmptyString => 0
        | String c1 s2 =>
            let n1 := nat_of_ascii c1 in
            if ((n =? 194) && (n1 =? 160))%nat then 2
            else
              match s2 with
              | EmptyString => 0
              | String c2 _ =>
                  let n2 := nat_of_ascii c2 in
                  if ((n =? 225) && (n1 =? 154) && (n2 =? 128) ||
                      (n =? 226) && (n1 =? 128) &&
                        ((128 <=? n2) && (n2 <=? 138) || (n2 =? 168) || (n2 =? 169) || (n2 =? 175)) ||
                      (n =? 226) && (n1 =? 129) && (n2 =? 159) ||
                      (n =? 227) && (n1 =? 128) && (n2 =? 128) ||
                      (n =? 239) && (n1 =? 187) && (n2 =? 191))%nat
                  then 3 else 0
              end
        end
  end%nat.

(** [trimStart()]; [skip] bytes of a white space character are still to
    be dropped. *)
Fixpoint trimStartFrom (skip : nat) (s : string) : string :=
  match s with
  | EmptyString => EmptyString
  | String _ s' =>
      match skip with
      | S k => trimStartFrom k s'
      | O =>
          match spaceLength s with
          | S k => trimStartFrom k s'
          | O => s
          end
      end
  end.

Definition trimStart (s : string) : string := trimStartFrom 0 s.

(** [trimEnd()]: cut at the first white space character from which on
    there is nothing but white space. *)
Fixpoint trimEnd (s : string) : string :=
  match s with
  | EmptyString => EmptyString
  | String c s' =>
      if negb (spaceLength s =? 0)%nat && String.eqb (trimStart s) ""
      then ""
      else String c (trimEnd s')
  end.

Definition trim (s : string) : string := trimEnd (trimStart s).

(** [cleanJson]: strip markdown fences from a JSON response. *)
Definition cleanJson (text : string) : string := trim (removeFences 0 text).

(** [\w] of a regular expression. *)
Definition isWordChar (c : ascii) : bool :=
  let n := nat_of_ascii c in
  ((48 <=? n) && (n <=? 57) || (65 <=? n) && (n <=? 90) ||
   (97 <=? n) && (n <=? 122) || (n =? 95))%nat.

Fixpoint dropWordChars (s : string) : string :=
  match s with
  | String c s' => if isWordChar c then dropWordChars s' else s
  | EmptyString => EmptyString
  end.

(** [base64Image.replace(/^data:image\/\w+;base64,/, "")]: the data URL
    prefix is removed when present.  The run [\w+] must be non-empty and,
    [;] not being a word character, is the maximal one. *)
Definition stripDataUrlPrefix (base64Image : string) : string :=
  if startsWith base64Image "data:image/" then
    let rest := drop 11 base64Image in
    match rest with
    | String c _ =>
        let after := dropWordChars rest in
        if isWordChar c && startsWith after ";base64,"
        then drop 8 after
        else base64Image
    | EmptyString => base64Image
    end
  else base64Image.

(** ** The provider's interface *)

(** [chunk.web] of a grounding chunk. *)
Record Web : Type := mkWeb {
  web_uri : option string;
  web_title : option string
}.

Record GroundingChunk : Type := mkChunk {
  web : option Web
}.

(** The part of a [generateContent] response the service reads:
    [response.text] and
    [response.candidates?.[0]?.groundingMetadata?.groundingChunks]. *)
Record Response : Type := mkResponse {
  text : option string;
  groundingChunks : option (list GroundingChunk)
}.

(** The three [generateContent] requests of the pipeline; model name,
    prompt template and config are fixed per request kind, so a request is
    determined by its kind and its payload. *)
Inductive Request : Type :=
| TranslateRequest (text : string)
| AnalyzeRequest (base64Data : string)
| ExplainRequest (text : string).

(** The object literal [{ originalText, translatedText }] of
    [analyzeImageRegion]'s [catch] block. *)
Definition analysisObject (originalText translatedText : string) : Json :=
  JObject [("originalText", JString originalText); ("translatedText", JString translatedText)].

(** The waits of an exponential backoff: [delay], [2 * delay], ... *)
Fixpoint backoff (delay : Z) (n : nat) : list Z :=
  match n with
  | O => []
  | S n' => delay :: backoff (delay * 2) n'
  end.

(** [2^0 + 2^1 + ... + 2^(k-1)]. *)
Definition pow2_sum (k : nat) : Z :=
  fold_right Z.add 0 (map (fun i => 2 ^ Z.of_nat i) (seq 0 k)).

Section Service.

Variable P : Type.

(** [new GoogleGenAI({ apiKey }).models.generateContent(request)]. *)
Variable generateContent : string -> Request -> Op P Response.

(** [JSON.parse] of the platform: the value of the document, whatever
    its shape; [None] when it throws. *)
Variable JSON_parse : string -> option Json.

(** The handle of a live session and
    [new GoogleGenAI({ apiKey }).live.connect(config)]. *)
Variable Handle : Type.
Variable liveConnect : string -> Op P Handle.

Variable rev : Revision.
Variable env : Env.

(** [const x = await call; return/throw body(x)] as an operation. *)
Definition awaitThen {A B} (call : Op P A) (body : A -> Outcome B) : Op P B :=
  fun p =>
    match call p with
    | (Resolved a, p1) => (body a, p1)
    | (Rejected e, p1) => (Rejected e, p1)
    end.

(** What [awaitThen call body] settles with, given what [call] settled
    with. *)
Definition continueWith {A B : Type} (body : A -> Outcome B) (r : Outcome A) : Outcome B :=
  match r with
  | Resolved a => body a
  | Rejected e => Rejected e
  end.

(** 1. Text translation service. *)
Definition translateText (text : string) : Async P string :=
  let key := apiKey rev env in
  if String.eqb key "" then reject (missingKey rev)
  else
    retryOperation
      (awaitThen (generateContent key (TranslateRequest text))
         (fun response => Resolved (orElse (GeminiService.text response) "Translation failed.")))
      defaultRetries defaultDelay.

(** 2. OCR and translation service. *)
Definition analyzeImageRegion (base64Image : string) : Async P Json :=
  let key := apiKey rev env in
  if String.eqb key "" then reject (missingKey rev)
  else
    let base64Data := stripDataUrlPrefix base64Image in
    retryOperation
      (awaitThen (generateContent key (AnalyzeRequest base64Data))
         (fun response =>
            match GeminiService.text response with
            | Some text =>
                if String.eqb text "" then Rejected (newError "No response from model")
                else
                  match JSON_parse (cleanJson text) with
                  | Some parsed => Resolved parsed
                  | None => Resolved (analysisObject "OCR Output (Raw)" text)
                  end
            | None => Rejected (newError "No response from model")
            end))
      defaultRetries defaultDelay.

(** [chunks.forEach(chunk => { if (chunk.web?.uri && chunk.web?.title)
    sources.push({ title, uri }) })]. *)
Fixpoint collectSources (chunks : list GroundingChunk) : list Types.SearchSource :=
  match chunks with
  | [] => []
  | chunk :: rest =>
      match web chunk with
      | Some (mkWeb (Some u) (Some t)) =>
          if negb (String.eqb u "") && negb (String.eqb t "")
          then Types.mkSource t u :: collectSources rest
          else collectSources rest
      | _ => collectSources rest
      end
  end.

(** 3. Search grounding service. *)
Definition explainWithSearch (text : string) : Async P (string * list Types.SearchSource) :=
  let key := apiKey rev env in
  if String.eqb key "" then reject (missingKey rev)
  else
    retryOperation
      (awaitThen (generateContent key (ExplainRequest text))
         (fun response =>
            let explanation := orElse (GeminiService.text response) "Could not generate explanation." in
            let chunks := match groundingChunks response with Some cs => cs | None => [] end in
            Resolved (explanation, collectSources chunks)))
      defaultRetries defaultDelay.

(** 5. Live API session.  [session] is the private field; [reported] lists
    the calls of [onStatusChange], oldest first. *)
Record LiveSession : Type := mkLiveSession {
  session : option Handle;
  reported : list string
}.

(** [new LiveSession(onStatusChange)]. *)
Definition newLiveSession : LiveSession := mkLiveSession None [].

(** [this.onStatusChange(s)]. *)
Definition onStatusChange (s : string) (this : LiveSession) : LiveSession :=
  mkLiveSession (session this) (reported this ++ [s]).

(** [connect()], run to the settlement of [ai.live.connect].  The later
    revision returns early when no key is configured. *)
Definition connect (this : LiveSession) (p : P) : LiveSession * P :=
  let this1 := onStatusChange "Connecting..." this in
  let key := apiKey rev env in
  match rev with
  | Part000 =>
      if String.eqb key "" then (onStatusChange "Error: Missing API Key" this1, p)
      else
        match liveConnect key p with
        | (Resolved h, p1) =>
            (onStatusChange "Connected" (mkLiveSession (Some h) (reported this1)), p1)
        | (Rejected _, p1) => (onStatusChange "Connection Failed" this1, p1)
        end
  | ServiceTs =>
      match liveConnect key p with
      | (Resolved h, p1) =>
          (onStatusChange "Connected" (mkLiveSession (Some h) (reported this1)), p1)
      | (Rejected _, p1) => (onStatusChange "Connection Failed" this1, p1)
      end
  end.

(** [disconnect()]. *)
Definition disconnect (this : LiveSession) : LiveSession :=
  onStatusChange "Disconnected" (mkLiveSession None (reported this)).

End Service.

End GeminiService.

(* ------------------------------------------------------------------ *)
(** * components/PDFViewer.tsx *)
(* ------------------------------------------------------------------ *)

Module PDFViewer.

Import Types.

(** The capture mode ['text' | 'box'] of the viewer. *)
Inductive Mode : Type := textMode | box.

(** [Math.min(a, b)]: [NaN] if either argument is, and [-0] below [+0]. *)
Definition Math_min (a b : float) : float :=
  if is_nan a || is_nan b then nan
  else if (a <? b)%float then a
  else if (b <? a)%float then b
  else if get_sign a then a else b.

(** A point in CSS pixels. *)
Record Pos : Type := mkPos {
  x : float;
  y : float
}.

Record MouseEvent : Type := mkMouse {
  clientX : float;
  clientY : float
}.

(** The page's [canvas]: backing resolution and displayed size. *)
Record Canvas : Type := mkCanvas {
  width : float;
  height : float;
  offsetWidth : float;
  offsetHeight : float
}.

(** [pageRef.current]: the corner of what [getBoundingClientRect()]
    returns and the result of [querySelector('canvas')]. *)
Record PageElement : Type := mkPage {
  left : float;
  top : float;
  canvas : option Canvas
}.

(** What cropping the canvas can come to: [getContext('2d')] gave no
    context, [drawImage]/[toDataURL] threw, or a PNG data URL. *)
Inductive CropResult : Type :=
| NoContext
| Threw
| DataUrl (url : string).

(** The document as a handler finds it at the moment it runs; scrolling,
    zooming and rendering change it between two events.  [crop cv sx sy sw
    sh] stands for the temporary canvas of size [sw] by [sh], its 2D
    context, [drawImage(cv, sx, sy, sw, sh, 0, 0, sw, sh)] and
    [toDataURL]. *)
Record Dom : Type := mkDom {
  pageRef : option PageElement;
  crop : Canvas -> float -> float -> float -> float -> CropResult
}.

(** Box selection state of [InteractivePage]. *)
Record PageState : Type := mkPageState {
  isSelecting : bool;
  startPos : Pos;
  currentPos : Pos
}.

Definition initialPageState : PageState :=
  mkPageState false (mkPos 0 0) (mkPos 0 0).

(** [getRelPos(e)]: coordinates relative to the page container, from
    the bounding rectangle read at this event. *)
Definition getRelPos (dom : Dom) (e : MouseEvent) : Pos :=
  match pageRef dom with
  | None => mkPos 0 0
  | Some page => mkPos (clientX e - left page) (clientY e - top page)
  end.

Definition handleMouseDown (mode : Mode) (dom : Dom) (e : MouseEvent)
    (st : PageState) : PageState :=
  match mode with
  | box => let pos := getRelPos dom e in mkPageState true pos pos
  | textMode => st
  end.

Definition handleMouseMove (mode : Mode) (dom : Dom) (e : MouseEvent)
    (st : PageState) : PageState :=
  match mode with
  | box =>
      if isSelecting st
      then mkPageState (isSelecting st) (startPos st) (getRelPos dom e)
      else st
  | textMode => st
  end.

(** [onMouseLeave={() => setIsSelecting(false)}]. *)
Definition handleMouseLeave (st : PageState) : PageState :=
  mkPageState false (startPos st) (currentPos st).

(** [w] and [h] of [handleMouseUp]: width and height of the rectangle
    between [startPos] and [currentPos], as computed in doubles. *)
Definition dragWidth (st : PageState) : float := abs (x (currentPos st) - x (startPos st)).
Definition dragHeight (st : PageState) : float := abs (y (currentPos st) - y (startPos st)).

(** The [try] block of [handleMouseUp]: the scale factors between the
    canvas's backing resolution and its displayed size, and the crop of the
    selected rectangle at backing resolution. *)
Definition captureRegion (dom : Dom) (cv : Canvas) (x0 y0 w h : float) : CropResult :=
  let scaleX := (width cv / offsetWidth cv)%float in
  let scaleY := (height cv / offsetHeight cv)%float in
  crop dom cv (x0 * scaleX) (y0 * scaleY) (w * scaleX) (h * scaleY).

(** [handleMouseUp()]: the new state and the argument of
    [onImageCapture], if it is called. *)
Definition handleMouseUp (mode : Mode) (dom : Dom) (st : PageState)
    : PageState * option string :=
  match mode with
  | textMode => (st, None)
  | box =>
      if negb (isSelecting st) then (st, None)
      else
        let st1 := mkPageState false (startPos st) (currentPos st) in
        let x0 := Math_min (x (startPos st)) (x (currentPos st)) in
        let y0 := Math_min (y (startPos st)) (y (currentPos st)) in
        let w := abs (x (currentPos st) - x (startPos st)) in
        let h := abs (y (currentPos st) - y (startPos st)) in
        if (w <? 10)%float || (h <? 10)%float then (st1, None)
        else
          match pageRef dom with
          | None => (st1, None)
          | Some page =>
              match canvas page with
              | None => (st1, None)
              | Some cv =>
                  match captureRegion dom cv x0 y0 w h with
                  | DataUrl url => (st1, Some url)
                  | NoContext | Threw => (st1, None)
                  end
              end
          end
  end.

(** [handleImageCapture(base64)] of [PDFViewer]: the selection handed to
    [onSelection]; [now] is [Date.now()]. *)
Definition handleImageCapture (base64 : string) (now : Z) : Selection.SelectionData :=
  Selection.mkSelection image base64 now.

(** [handleTextSelect(text)]. *)
Definition handleTextSelect (text : string) (now : Z) : Selection.SelectionData :=
  Selection.mkSelection Types.text text now.

(** The pointer events the page container listens to, each with the
    document as it is when the handler runs; a pointer-up also carries the
    clock reading used if it captures. *)
Inductive PointerEvent : Type :=
| MouseDown (dom : Dom) (e : MouseEvent)
| MouseMove (dom : Dom) (e : MouseEvent)
| MouseUp (dom : Dom) (now : Z)
| MouseLeave.

(** One event: the new state and the selections handed to [onSelection]. *)
Definition dispatch (mode : Mode) (st : PageState) (ev : PointerEvent)
    : PageState * list Selection.SelectionData :=
  match ev with
  | MouseDown dom e => (handleMouseDown mode dom e st, [])
  | MouseMove dom e => (handleMouseMove mode dom e st, [])
  | MouseLeave => (handleMouseLeave st, [])
  | MouseUp dom now =>
      match handleMouseUp mode dom st with
      | (st1, Some url) => (st1, [handleImageCapture url now])
      | (st1, None) => (st1, [])
      end
  end.

(** A sequence of events, with the selections emitted along the way. *)
Fixpoint gesture (mode : Mode) (st : PageState) (evs : list PointerEvent)
    : PageState * list Selection.SelectionData :=
  match evs with
  | [] => (st, [])
  | ev :: rest =>
      let '(st1, out1) := dispatch mode st ev in
      let '(st2, out2) := gesture mode st1 rest in
      (st2, out1 ++ out2)
  end.

(** Pointer moves, each with the document it finds. *)
Definition moveEvents (moves : list (Dom * MouseEvent)) : list PointerEvent :=
  map (fun m => MouseMove (fst m) (snd m)) moves.

(** The state a drag has reached just before the pointer is released:
    pressed at [e0] on the document [dom0], then moved through [moves]. *)
Definition dragged (dom0 : Dom) (e0 : MouseEvent) (moves : list (Dom * MouseEvent))
    : PageState :=
  mkPageState true (getRelPos dom0 e0)
    (last (map (fun m => getRelPos (fst m) (snd m)) moves) (getRelPos dom0 e0)).

(** [x] and [y] of [handleMouseUp]: the corner of the rectangle between
    [startPos] and [currentPos]. *)
Definition dragLeft (st : PageState) : float := Math_min (x (startPos st)) (x (currentPos st)).
Definition dragTop (st : PageState) : float := Math_min (y (startPos st)) (y (currentPos st)).

End PDFViewer.

(* ------------------------------------------------------------------ *)
(** * components/TranslationPanel.tsx *)
(* ------------------------------------------------------------------ *)

Module TranslationPanel.

Import GeminiService.
Import Types.

(** The React state of the panel that the pipeline touches. *)
Record PanelState : Type := mkPanel {
  history : list TranslationResult;
  loading : bool;
  activeId : option Z;
  deepDiveLoadingId : option Z
}.

Definition setHistory (f : list TranslationResult -> list TranslationResult)
    (st : PanelState) : PanelState :=
  mkPanel (f (history st)) (loading st) (activeId st) (deepDiveLoadingId st).

Definition setLoading (b : bool) (st : PanelState) : PanelState :=
  mkPanel (history st) b (activeId st) (deepDiveLoadingId st).

Definition setActiveId (i : option Z) (st : PanelState) : PanelState :=
  mkPanel (history st) (loading st) i (deepDiveLoadingId st).

Definition setDeepDiveLoadingId (i : option Z) (st : PanelState) : PanelState :=
  mkPanel (history st) (loading st) (activeId st) i.

(** The update idiom of the panel,
    [prev.map(item => item.id === id ? { ...item, ...fields } : item)]. *)
Definition updateById (target : Z) (patch : TranslationResult -> TranslationResult)
    (prev : list TranslationResult) : list TranslationResult :=
  map (fun item => if id item =? target then patch item else item) prev.

(** [{ ...item, originalText, translatedText }]. *)
Definition withResult (resultOriginal resultTranslated : Text)
    (item : TranslationResult) : TranslationResult :=
  mkResult (id item) resultOriginal resultTranslated (type item) (imageUrl item)
    (explanation item) (searchSources item) (timestamp item).

(** [{ ...item, translatedText: errorMessage }]. *)
Definition withError (errorMessage : string) (item : TranslationResult) : TranslationResult :=
  mkResult (id item) (originalText item) errorMessage (type item) (imageUrl item)
    (explanation item) (searchSources item) (timestamp item).

(** [{ ...item, explanation, searchSources: sources }]. *)
Definition withExplanation (expl : string) (sources : list SearchSource)
    (item : TranslationResult) : TranslationResult :=
  mkResult (id item) (originalText item) (translatedText item) (type item) (imageUrl item)
    (Some expl) (Some sources) (timestamp item).

(** The placeholder entry [newEntry]; [now] is [Date.now()]. *)
Definition newEntry (selectionData : Selection.SelectionData) (now : Z) : TranslationResult :=
  mkResult (Selection.id selectionData)
    (match Selection.type selectionData with
     | text => Selection.content selectionData
     | image => "Reading text from image..."
     end)
    ""
    (Selection.type selectionData)
    (match Selection.type selectionData with
     | image => Some (Selection.content selectionData)
     | text => None
     end)
    None None now.

(** The message chosen in the [catch] block of [processNewSelection]. *)
Definition errorMessageFor (e : Error) : string :=
  if messageIncludes e "429" || messageIncludes e "quota" || messageIncludes e "exhausted"
  then "Usage limit reached. Please wait a moment and try again."
  else "Translation failed. Please try again.".

(** [processNewSelection] up to its first [await]: the active id, the
    loading flag and the placeholder put on top of the history. *)
Definition arrive (selectionData : Selection.SelectionData) (now : Z)
    (st : PanelState) : PanelState :=
  setHistory (fun prev => newEntry selectionData now :: prev)
    (setLoading true (setActiveId (Some (Selection.id selectionData)) st)).

(** [processNewSelection] after the awaited call has settled with [r], the
    pair [(resultOriginal, resultTranslated)] or the caught error; the
    [finally] block clears the loading flag. *)
Definition settle (selectionData : Selection.SelectionData)
    (r : Outcome (Text * Text)) (st : PanelState) : PanelState :=
  let newId := Selection.id selectionData in
  setLoading false
    (match r with
     | Resolved (resultOriginal, resultTranslated) =>
         setHistory (updateById newId (withResult resultOriginal resultTranslated)) st
     | Rejected e =>
         setHistory (updateById newId (withError (errorMessageFor e))) st
     end).

(** [handleDeepDive(text, id)] before and after its [await]. *)
Definition deepDiveStart (target : Z) (st : PanelState) : PanelState :=
  setDeepDiveLoadingId (Some target) st.

Definition deepDiveSettle (target : Z) (r : Outcome (string * list SearchSource))
    (st : PanelState) : PanelState :=
  setDeepDiveLoadingId None
    (match r with
     | Resolved (expl, sources) =>
         setHistory (updateById target (withExplanation expl sources)) st
     | Rejected _ => st
     end).

(** The steps that asynchronous runs of the panel interleave. *)
Inductive Step : Type :=
| Arrive (selectionData : Selection.SelectionData) (now : Z)
| Settle (selectionData : Selection.SelectionData) (r : Outcome (Text * Text))
| DeepDiveStart (target : Z)
| DeepDiveSettle (target : Z) (r : Outcome (string * list SearchSource)).

Definition step (st : PanelState) (s : Step) : PanelState :=
  match s with
  | Arrive selectionData now => arrive selectionData now st
  | Settle selectionData r => settle selectionData r st
  | DeepDiveStart target => deepDiveStart target st
  | DeepDiveSettle target r => deepDiveSettle target r st
  end.

Definition run (steps : list Step) (st : PanelState) : PanelState :=
  fold_left step steps st.

(** The ids of the selections that arrive in a schedule, oldest first. *)
Fixpoint arrivals (steps : list Step) : list Z :=
  match steps with
  | [] => []
  | Arrive selectionData _ :: rest => Selection.id selectionData :: arrivals rest
  | _ :: rest => arrivals rest
  end.

(** The id whose record a step updates, if it updates one. *)
Definition targetOf (s : Step) : option Z :=
  match s with
  | Settle selectionData _ => Some (Selection.id selectionData)
  | DeepDiveSettle target _ => Some target
  | Arrive _ _ | DeepDiveStart _ => None
  end.

(** [after] has the records of [before], in the same places and under
    the same ids, and differs at most in the records with id [target]. *)
Definition updatesOnly (target : option Z) (before after : list TranslationResult) : Prop :=
  Forall2 (fun b a => id a = id b /\ (Some (id b) <> target -> a = b)) before after.

(** A patch that keeps the id of the record it is applied to. *)
Definition keepsId (patch : TranslationResult -> TranslationResult) : Prop :=
  forall item, id (patch item) = id item.

Definition emptyPanel : PanelState := mkPanel [] false None None.

Section Pipeline.

Variable P : Type.
Variable generateContent : string -> Request -> Op P Response.
Variable JSON_parse : string -> option Json.
Variable rev : Revision.
Variable env : Env.

(** [resultOriginal = analysis.originalText; resultTranslated =
    analysis.translatedText] on what the service resolved with: the two
    values as they are, or the [TypeError] of the first read when the
    service resolved with [null]. *)
Definition readAnalysis (analysis : Json) : Outcome (Text * Text) :=
  match getProperty analysis "originalText" with
  | None => Rejected (nullReadError "originalText")
  | Some resultOriginal =>
      match getProperty analysis "translatedText" with
      | None => Rejected (nullReadError "translatedText")
      | Some resultTranslated =>
          Resolved (textOfValue resultOriginal, textOfValue resultTranslated)
      end
  end.

(** The call awaited by [processNewSelection] and the assignments after
    it, ending in the pair [(resultOriginal, resultTranslated)] or in what
    the [catch] block receives. *)
Definition request (selectionData : Selection.SelectionData) : Async P (Text * Text) :=
  match Selection.type selectionData with
  | image =>
      bind (analyzeImageRegion generateContent JSON_parse rev env (Selection.content selectionData))
        (fun analysis p => (readAnalysis analysis, p, []))
  | text =>
      bind (translateText generateContent rev env (Selection.content selectionData))
        (fun translated => resolve (Str (Selection.content selectionData), Str translated))
  end.

(** One whole run of [processNewSelection], the awaited call settling
    before anything else happens. *)
Definition processNewSelection (selectionData : Selection.SelectionData) (now : Z)
    (st : PanelState) (p : P) : PanelState * P * list event :=
  let st1 := arrive selectionData now st in
  let '(r, p1, tr) := request selectionData p in
  (settle selectionData r st1, p1, tr).

(** One whole run of [handleDeepDive]. *)
Definition handleDeepDive (text : string) (target : Z) (st : PanelState) (p : P)
    : PanelState * P * list event :=
  let st1 := deepDiveStart target st in
  let '(r, p1, tr) := explainWithSearch generateContent rev env text p in
  (deepDiveSettle target r st1, p1, tr).

End Pipeline.

End TranslationPanel.

(* ------------------------------------------------------------------ *)
(** * components/LiveAssistant.tsx *)
(* ------------------------------------------------------------------ *)

Module LiveAssistant.

Import GeminiService.

Section Assistant.

Variable P : Type.
Variable Handle : Type.
Variable liveConnect : string -> Op P Handle.
Variable rev : Revision.
Variable env : Env.

(** The component: [status], [isConnected] and [liveSessionRef.current]. *)
Record Assistant : Type := mkAssistant {
  status : string;
  isConnected : bool;
  liveSessionRef : option (LiveSession Handle)
}.

Definition initialAssistant : Assistant := mkAssistant "Idle" false None.

(** The callback given to [new LiveSession]:
    [s => { setStatus(s); setIsConnected(s === "Connected") }], applied to
    the statuses a call reported, in order. *)
Definition deliver (statuses : list string) (a : Assistant) : Assistant :=
  fold_left (fun a' s => mkAssistant s (String.eqb s "Connected") (liveSessionRef a'))
    statuses a.

(** The body of the effect on [isOpen]. *)
Definition effect (isOpen : bool) (a : Assistant) (p : P) : Assistant * P :=
  match isOpen, liveSessionRef a with
  | true, None =>
      let '(session1, p1) := connect liveConnect rev env (newLiveSession Handle) p in
      (deliver (reported session1)
         (mkAssistant (status a) (isConnected a) (Some session1)), p1)
  | _, _ => (a, p)
  end.

(** The cleanup returned by the effect; [isOpen] is the value the effect
    that created it ran with. *)
Definition cleanup (isOpen : bool) (a : Assistant) : Assistant :=
  match isOpen, liveSessionRef a with
  | false, Some _ => mkAssistant "Idle" false None
  | _, _ => a
  end.

End Assistant.

End LiveAssistant.

(* ------------------------------------------------------------------ *)
(** * Sample environments *)
(* ------------------------------------------------------------------ *)

(** Concrete operations, providers and documents on which the definitions
    above are run. *)
Module Samples.

Import GeminiService.

(** An operation over a call counter that is rejected with [e] on its first
    [k] invocations and resolves with [v] from then on. *)
Definition flaky {T} (k : nat) (e : Error) (v : T) : Op nat T :=
  fun calls => if (calls <? k)%nat then (Rejected e, S calls) else (Resolved v, S calls).

(** An operation that is rejected with [e] on every invocation. *)
Definition failing {T} (e : Error) : Op nat T :=
  fun calls => (Rejected e, S calls).

Definition quotaError : Error := newError "You exceeded your current quota".
Definition status429 : Error := mkError (Some "Too Many Requests") (Some 429).
Definition authError : Error := newError "API key not valid".

Definition envWithKey : Env := mkEnv None None (Some "k-123").

(** A provider, over a call counter, whose every response carries [t] as
    its text. *)
Definition answering (t : option string) : string -> Request -> Op nat Response :=
  fun _ _ calls => (Resolved (mkResponse t None), S calls).

(** A provider that rejects every request with [e]. *)
Definition refusing (e : Error) : string -> Request -> Op nat Response :=
  fun _ _ calls => (Rejected e, S calls).

Definition quote : string := String "034"%char "".

(** The placeholder the specification names, "extracting" followed by
    the horizontal ellipsis U+2026 (bytes E2 80 A6). *)
Definition extractingPlaceholder : string :=
  "extracting" ++ String "226"%char (String "128"%char (String "166"%char "")).

Definition textSelection : Types.Selection.SelectionData :=
  Types.Selection.mkSelection Types.text "neural network" 1700000000001.

Definition imageSelection : Types.Selection.SelectionData :=
  Types.Selection.mkSelection Types.image "data:image/png;base64,iVBORw0KGgo=" 1700000000002.

(** A well-formed response document, and [JSON.parse] restricted to it
    and to the documents [null], [42] and [{}]; every other text is
    taken to be malformed. *)
Definition sampleJson : string :=
  "{" ++ quote ++ "originalText" ++ quote ++ ":" ++ quote ++ "Hello" ++ quote ++ "," ++
  quote ++ "translatedText" ++ quote ++ ":" ++ quote ++ "Bonjour" ++ quote ++ "}".

Definition sampleParse (s : string) : option Json :=
  if String.eqb s sampleJson then Some (analysisObject "Hello" "Bonjour")
  else if String.eqb s "null" then Some JNull
  else if String.eqb s "42" then Some (JNumber 42)
  else if String.eqb s "{}" then Some (JObject [])
  else None.

(** A live provider handing out consecutive session handles. *)
Definition liveProvider : string -> Op nat nat :=
  fun _ opened => (Resolved opened, S opened).

(** A rendered page at (100, 50), its canvas at twice the displayed
    resolution, and a document in which every crop succeeds. *)
Definition sampleCanvas : PDFViewer.Canvas := PDFViewer.mkCanvas 1200 1600 600 800.

Definition renderedDom : PDFViewer.Dom :=
  PDFViewer.mkDom (Some (PDFViewer.mkPage 100 50 (Some sampleCanvas)))
    (fun _ _ _ _ _ => PDFViewer.DataUrl "data:image/png;base64,iVBORw0KGgo=").

(** The page after the view has scrolled down by 12 pixels. *)
Definition scrolledDom : PDFViewer.Dom :=
  PDFViewer.mkDom (Some (PDFViewer.mkPage 100 38 (Some sampleCanvas)))
    (fun _ _ _ _ _ => PDFViewer.DataUrl "data:image/png;base64,iVBORw0KGgo=").

(** The page at a fractional horizontal offset: the double nearest to
    0.1. *)
Definition offsetDom : PDFViewer.Dom :=
  PDFViewer.mkDom (Some (PDFViewer.mkPage 0x1.999999999999ap-4 50 (Some sampleCanvas)))
    (fun _ _ _ _ _ => PDFViewer.DataUrl "data:image/png;base64,iVBORw0KGgo=").

(** The same page before its canvas has been rendered. *)
Definition loadingDom : PDFViewer.Dom :=
  PDFViewer.mkDom (Some (PDFViewer.mkPage 100 50 None))
    (fun _ _ _ _ _ => PDFViewer.DataUrl "data:image/png;base64,iVBORw0KGgo=").

End Samples.


(* ------------------------------------------------------------------ *)
(** * services/geminiService.ts: text to speech *)
(* ------------------------------------------------------------------ *)

Module RetrySchedule.

Import GeminiService.

(** The events of a run that retries [n] times: [n + 1] invocations, and
    between each two of them one wait, of [delay], [2 * delay], ... *)
Fixpoint schedule (delay : Z) (n : nat) : list event :=
  match n with
  | O => [Invoke]
  | S n' => Invoke :: Wait delay :: schedule (delay * 2) n'
  end.

End RetrySchedule.

Module Speech.

Import GeminiService.

Section SpeechService.

Variable P : Type.

(** The text-to-speech request, [generateContent] with the TTS model and
    its audio config, reduced to what [generateSpeech] reads of the
    response: [response.candidates?.[0]?.content?.parts?.[0]?.inlineData?.data]. *)
Variable generateAudio : string -> string -> Op P (option string).

(** The decoded audio, and the way to it from the base64 data: the audio
    context, [base64ToUint8Array] and [decodeAudioData] (the last two
    imported from [./audioUtils]); a buffer, or what was thrown. *)
Variable AudioBuffer : Type.
Variable decodeAudio : string -> Outcome AudioBuffer.

(** Starting the playback of a buffer in [handlePlayAudio]:
    [false] when one of the audio calls throws. *)
Variable startPlayback : AudioBuffer -> bool.

Variable rev : Revision.
Variable env : Env.

(** 4. Text-to-speech service. *)
Definition generateSpeech (text : string) : Async P AudioBuffer :=
  let key := apiKey rev env in
  if String.eqb key "" then reject (missingKey rev)
  else
    retryOperation
      (awaitThen (generateAudio key text)
         (fun base64Audio =>
            match base64Audio with
            | Some data =>
                if String.eqb data "" then Rejected (newError "No audio data generated")
                else decodeAudio data
            | None => Rejected (newError "No audio data generated")
            end))
      defaultRetries defaultDelay.

(** Truthiness of [audioPlayingId], a number or [null]. *)
Definition isPlaying (audioPlayingId : option Z) : bool :=
  match audioPlayingId with
  | Some n => negb (n =? 0)
  | None => false
  end.

(** [handlePlayAudio(text, id)] of the translation panel, run to the
    settlement of [generateSpeech]: the new [audioPlayingId], the provider
    and the trace. *)
Definition handlePlayAudio (text : string) (id : Z) (audioPlayingId : option Z) (p : P)
    : option Z * P * list event :=
  if isPlaying audioPlayingId then (audioPlayingId, p, [])
  else
    match generateSpeech text p with
    | (Resolved buffer, p1, tr) =>
        if startPlayback buffer then (Some id, p1, tr) else (None, p1, tr)
    | (Rejected _, p1, tr) => (None, p1, tr)
    end.

(** [source.onended = () => setAudioPlayingId(null)]. *)
Definition handleAudioEnded (audioPlayingId : option Z) : option Z := None.

End SpeechService.

End Speech.

(* ------------------------------------------------------------------ *)
(** * components/PDFViewer.tsx: text selection and page navigation *)
(* ------------------------------------------------------------------ *)

Module TextCapture.

Import GeminiService PDFViewer.

(** Text selection popup state of [InteractivePage]. *)
Record TextState : Type := mkTextState {
  showTextTooltip : bool;
  tooltipPos : Pos;
  selectedText : string
}.

Definition initialTextState : TextState := mkTextState false (mkPos 0 0) "".

(** [window.getSelection()] as the handler reads it: [toString()], whether
    the page contains [anchorNode], and the bounding rectangle of
    [getRangeAt(0)]. *)
Record NativeSelection : Type := mkNative {
  toString : string;
  anchorInPage : bool;
  rangeLeft : float;
  rangeTop : float;
  rangeWidth : float
}.

(** A [mouseup] on the document: whether its target lies inside the
    tooltip element, and the selection at that moment. *)
Record DocumentMouseUp : Type := mkDocumentMouseUp {
  targetInTooltip : bool;
  getSelection : option NativeSelection
}.

Definition hideTooltip (st : TextState) : TextState :=
  mkTextState false (tooltipPos st) (selectedText st).

(** [handleDocumentMouseUp(e)].  [tooltipRef.current] is set exactly while
    the tooltip is rendered, that is while [showTextTooltip] holds in text
    mode. *)
Definition handleDocumentMouseUp (mode : Mode) (dom : Dom) (e : DocumentMouseUp)
    (st : TextState) : TextState :=
  match mode with
  | box => st
  | textMode =>
      if showTextTooltip st && targetInTooltip e then st
      else
        match getSelection e with
        | Some selection =>
            if negb (String.eqb (trim (toString selection)) "") then
              match pageRef dom with
              | Some page =>
                  if anchorInPage selection then
                    mkTextState true
                      (mkPos (rangeLeft selection + rangeWidth selection / 2 - left page)
                             (rangeTop selection - top page - 45))
                      (toString selection)
                  else hideTooltip st
              | None => hideTooltip st
              end
            else hideTooltip st
        | None => hideTooltip st
        end
  end.

(** [handleTooltipMouseDown(e)]: the new state and the selection handed
    to [onSelection] through [handleTextSelect]. *)
Definition handleTooltipMouseDown (now : Z) (st : TextState)
    : TextState * Types.Selection.SelectionData :=
  (hideTooltip st, handleTextSelect (selectedText st) now).

(** The events of text mode.  The tooltip can be pressed only while it is
    rendered: [showTextTooltip && mode === 'text']. *)
Inductive TextEvent : Type :=
| MouseUpOnDocument (e : DocumentMouseUp)
| MouseDownOnTooltip (now : Z).

Definition textDispatch (mode : Mode) (dom : Dom) (st : TextState) (ev : TextEvent)
    : TextState * list Types.Selection.SelectionData :=
  match ev with
  | MouseUpOnDocument e => (handleDocumentMouseUp mode dom e st, [])
  | MouseDownOnTooltip now =>
      match mode with
      | textMode =>
          if showTextTooltip st
          then let '(st1, sel) := handleTooltipMouseDown now st in (st1, [sel])
          else (st, [])
      | box => (st, [])
      end
  end.

Fixpoint textGesture (mode : Mode) (dom : Dom) (st : TextState) (evs : list TextEvent)
    : TextState * list Types.Selection.SelectionData :=
  match evs with
  | [] => (st, [])
  | ev :: rest =>
      let '(st1, out1) := textDispatch mode dom st ev in
      let '(st2, out2) := textGesture mode dom st1 rest in
      (st2, out1 ++ out2)
  end.

(** The selections a qualifying document mouse-up can record: not blank,
    anchored in the page. *)
Definition qualifies (dom : Dom) (e : DocumentMouseUp) : bool :=
  match getSelection e, pageRef dom with
  | Some selection, Some _ =>
      negb (String.eqb (trim (toString selection)) "") && anchorInPage selection
  | _, _ => false
  end.

End TextCapture.

Module PointerCounts.

Import PDFViewer.

(** The number of presses and of releases among pointer events. *)
Definition presses (evs : list PointerEvent) : nat :=
  List.length (filter (fun ev => match ev with MouseDown _ _ => true | _ => false end) evs).

Definition releases (evs : list PointerEvent) : nat :=
  List.length (filter (fun ev => match ev with MouseUp _ _ => true | _ => false end) evs).

(** The number of presses on the tooltip among text events. *)
Definition confirmations (evs : list TextCapture.TextEvent) : nat :=
  List.length
    (filter (fun ev => match ev with TextCapture.MouseDownOnTooltip _ => true | _ => false end)
       evs).

End PointerCounts.

Module PageNav.

(** Page state of [PDFViewer]. *)
Record NavState : Type := mkNav {
  numPages : Z;
  pageNumber : Z
}.

(** [useState(0)] and [useState(1)]. *)
Definition initialNav : NavState := mkNav 0 1.

(** [onDocumentLoadSuccess({ numPages })]. *)
Definition onDocumentLoadSuccess (n : Z) (st : NavState) : NavState := mkNav n 1.

(** [changePage(offset)]:
    [setPageNumber(prev => Math.max(1, Math.min(prev + offset, numPages)))]. *)
Definition changePage (offset : Z) (st : NavState) : NavState :=
  mkNav (numPages st) (Z.max 1 (Z.min (pageNumber st + offset) (numPages st))).

(** The [disabled] attributes of the two pagination buttons. *)
Definition previousDisabled (st : NavState) : bool := pageNumber st <=? 1.
Definition nextDisabled (st : NavState) : bool := pageNumber st >=? numPages st.

Inductive NavEvent : Type :=
| Loaded (n : Z)
| PageChange (offset : Z).

Definition navStep (st : NavState) (ev : NavEvent) : NavState :=
  match ev with
  | Loaded n => onDocumentLoadSuccess n st
  | PageChange offset => changePage offset st
  end.

Definition navigate (evs : list NavEvent) (st : NavState) : NavState :=
  fold_left navStep evs st.

End PageNav.

(* ------------------------------------------------------------------ *)
(** * components/TranslationPanel.tsx: persistence and rendering *)
(* ------------------------------------------------------------------ *)

Module HistoryStorage.

Import Types TranslationPanel.

Section Storage.

(** [JSON.stringify] and [JSON.parse] of the platform on the history, the
    parsed value taken at the type of the state; [None] when [parse]
    throws. *)
Variable JSON_stringify : list TranslationResult -> string.
Variable JSON_parse : string -> option (list TranslationResult).

(** The initializer of the [history] state on
    [localStorage.getItem('paperpal_history')], [None] for [null]:
    [saved ? JSON.parse(saved) : []], and [[]] when that throws. *)
Definition loadHistory (saved : option string) : list TranslationResult :=
  match saved with
  | Some s =>
      if String.eqb s "" then []
      else
        match JSON_parse s with
        | Some h => h
        | None => []
        end
  | None => []
  end.

(** The panel as it mounts. *)
Definition mount (saved : option string) : PanelState :=
  mkPanel (loadHistory saved) false None None.

(** The effect on [history]:
    [localStorage.setItem('paperpal_history', JSON.stringify(history))]. *)
Definition saveEffect (st : PanelState) : option string :=
  Some (JSON_stringify (history st)).

(** [clearHistory()], [confirmed] being the answer of [window.confirm]:
    the state and the stored item when the handler returns. *)
Definition clearHistory (confirmed : bool) (st : PanelState) (saved : option string)
    : PanelState * option string :=
  if confirmed then (setHistory (fun _ => []) st, None) else (st, saved).

End Storage.

End HistoryStorage.

Module PanelView.

Import Types TranslationPanel.

(** [t.includes(needle)] on the content of a [string] slot: the substring
    test on a string, the membership test of [Array.prototype.includes]
    on an array; on any other value the call throws ([None]). *)
Definition textIncludes (t : Text) (needle : string) : option bool :=
  match t with
  | Str s | Other (Some (JString s)) => Some (includes s needle)
  | Other (Some (JArray items)) =>
      Some (existsb (fun v => match v with
                              | JString s => String.eqb s needle
                              | _ => false
                              end) items)
  | Other _ => None
  end.

(** [!t] on the content of a [string] slot. *)
Definition falsy (t : Text) : bool :=
  match t with
  | Str s | Other (Some (JString s)) => String.eqb s ""
  | Other None | Other (Some JNull) => true
  | Other (Some (JBool b)) => negb b
  | Other (Some (JNumber n)) => is_zero n || is_nan n
  | Other (Some (JArray _)) | Other (Some (JObject _)) => false
  end.

(** What [item.translatedText.includes('failed') ||
    item.translatedText.includes('limit')] evaluates to; [None] when it
    throws. *)
Definition failureTest (item : TranslationResult) : option bool :=
  match textIncludes (translatedText item) "failed" with
  | Some true => Some true
  | Some false => textIncludes (translatedText item) "limit"
  | None => None
  end.

(** What [!item.translatedText.includes('failed') &&
    !item.translatedText.includes('limit')] evaluates to. *)
Definition toolbarTest (item : TranslationResult) : option bool :=
  match textIncludes (translatedText item) "failed" with
  | Some true => Some false
  | Some false => option_map negb (textIncludes (translatedText item) "limit")
  | None => None
  end.

(** The translation is rendered as a failure: the test gives [true]. *)
Definition looksFailed (item : TranslationResult) : bool :=
  match failureTest item with
  | Some b => b
  | None => false
  end.

(** The loading row is rendered for [item]:
    [loading && item.id === activeId && !item.translatedText]. *)
Definition showsSpinner (st : PanelState) (item : TranslationResult) : bool :=
  loading st &&
  match activeId st with
  | Some a => id item =? a
  | None => false
  end &&
  falsy (translatedText item).

(** The toolbar (read aloud, copy, explain) is rendered for [item]: its
    test gives [true]; a render that throws shows none. *)
Definition showsToolbar (item : TranslationResult) : bool :=
  match toolbarTest item with
  | Some b => b
  | None => false
  end.

(** [!item.explanation]. *)
Definition lacksExplanation (item : TranslationResult) : bool :=
  negb (truthy (explanation item)).

(** The Explain button is rendered for [item]: inside the toolbar, when
    [!item.explanation]. *)
Definition offersExplain (item : TranslationResult) : bool :=
  showsToolbar item && lacksExplanation item.

End PanelView.

(* ------------------------------------------------------------------ *)
(** * components/LiveAssistant.tsx: the effect across renders *)
(* ------------------------------------------------------------------ *)

Module AssistantLifecycle.

Import GeminiService LiveAssistant.

Section Lifecycle.

Variable P : Type.
Variable Handle : Type.
Variable liveConnect : string -> Op P Handle.
Variable rev : Revision.
Variable env : Env.

(** A render in which [isOpen] changed from [wasOpen]: the cleanup of the
    previous effect, which closed over [wasOpen], then the new effect. *)
Definition rerender (wasOpen isOpen : bool) (a : Assistant Handle) (p : P)
    : Assistant Handle * P :=
  effect liveConnect rev env isOpen (cleanup wasOpen a) p.

(** Whether the controller the assistant holds has a session handle. *)
Definition holdsSession (a : Assistant Handle) : bool :=
  match liveSessionRef a with
  | Some controller =>
      match session controller with
      | Some _ => true
      | None => false
      end
  | None => false
  end.

End Lifecycle.

End AssistantLifecycle.

(* ------------------------------------------------------------------ *)
(** * Character classes of strings *)
(* ------------------------------------------------------------------ *)

Module Chars.

Import GeminiService.

(** No character of [s] is [c]. *)
Fixpoint freeOf (c : ascii) (s : string) : bool :=
  match s with
  | EmptyString => true
  | String d s' => negb (Ascii.eqb d c) && freeOf c s'
  end.

(** [s] is made of word characters only. *)
Fixpoint allWordChars (s : string) : bool :=
  match s with
  | EmptyString => true
  | String d s' => isWordChar d && allWordChars s'
  end.

Definition backtick : ascii := "096"%char.

(** A response body wrapped in a markdown fence, the way the model tends
    to return JSON. *)
Definition fenced (body : string) : string :=
  ("```json" ++ String LF body ++ String LF "```")%string.

End Chars.

(* ------------------------------------------------------------------ *)
(** * More sample environments *)
(* ------------------------------------------------------------------ *)

Module MoreSamples.

Import GeminiService.

Definition envWithoutKey : Env := mkEnv None (Some "") None.

Definition envVite : Env := mkEnv (Some "vite-key") None (Some "node-key").

(** A store in which only the empty history is written and read back. *)
Definition emptyOnlyStringify (h : list Types.TranslationResult) : string :=
  match h with
  | [] => "[]"
  | _ :: _ => "[...]"
  end.

Definition emptyOnlyParse (s : string) : option (list Types.TranslationResult) :=
  if String.eqb s "[]" then Some [] else None.

(** A history of one settled record, and a store that writes and reads
    back that history and the empty one. *)
Definition savedHistory : list Types.TranslationResult :=
  [TranslationPanel.withResult "neural network" "reseau de neurones"
     (TranslationPanel.newEntry Samples.textSelection 1700000000100)].

Definition savedDocument : string := "[{neural network}]".

Definition sampleStringify (h : list Types.TranslationResult) : string :=
  match h with
  | [] => "[]"
  | [item] => if Types.id item =? 1700000000001 then savedDocument else "[...]"
  | _ :: _ :: _ => "[...]"
  end.

Definition sampleHistoryParse (s : string) : option (list Types.TranslationResult) :=
  if String.eqb s "[]" then Some []
  else if String.eqb s savedDocument then Some savedHistory
  else None.

(** A text-to-speech provider without audio in its answers. *)
Definition silentProvider : string -> string -> Op nat (option string) :=
  fun _ _ calls => (Resolved None, S calls).

(** A selection of the words "neural network" inside the page. *)
Definition wordsSelected : TextCapture.DocumentMouseUp :=
  TextCapture.mkDocumentMouseUp false
    (Some (TextCapture.mkNative "neural network" true 300 400 120)).

(** A click that leaves no selection. *)
Definition nothingSelected : TextCapture.DocumentMouseUp :=
  TextCapture.mkDocumentMouseUp false None.

End MoreSamples.

Unset Implicit Arguments.

(* ------------------------------------------------------------------ *)
(** * Substrings *)
(* ------------------------------------------------------------------ *)

Import Js.

Lemma startsWith_iff (sub s : string) :
  startsWith s sub = true <-> exists rest, s = (sub ++ rest)%string.
Proof.
  revert s; induction sub as [|c sub IH]; intros s; simpl.
  - split; [intros _; exists s; reflexivity | destruct s; reflexivity].
  - destruct s as [|d s]; simpl.
    + split; [discriminate | intros [rest H]; discriminate].
    + rewrite andb_true_iff, Ascii.eqb_eq, IH. split.
      * intros [-> [rest ->]]. exists rest. reflexivity.
      * intros [rest H]. injection H as -> ->. split; [reflexivity | exists rest; reflexivity].
Qed.

Lemma includes_iff (sub s : string) :
  includes s sub = true <-> occursIn sub s.
Proof.
  unfold occursIn. induction s as [|d s IH].
  - cbn [includes]. rewrite orb_false_r, startsWith_iff. split.
    + intros [rest H]. exists EmptyString, rest. exact H.
    + intros [before [after H]]. destruct before; [exists after; exact H | discriminate].
  - cbn [includes]. rewrite orb_true_iff, startsWith_iff, IH. split.
    + intros [[rest H] | [before [after H]]].
      * exists EmptyString, rest. exact H.
      * exists (String d before), after. simpl. rewrite H. reflexivity.
    + intros [before [after H]]. destruct before as [|b before]; simpl in H.
      * left. exists after. exact H.
      * right. injection H as _ H. exists before, after. exact H.
Qed.

(* ------------------------------------------------------------------ *)
(** * The retry wrapper *)
(* ------------------------------------------------------------------ *)

Import GeminiService.

Lemma messageIncludes_iff (e : Error) (marker : string) :
  messageIncludes e marker = true <->
  exists m, message e = Some m /\ occursIn marker m.
Proof.
  unfold messageIncludes. destruct (message e) as [m|].
  - rewrite includes_iff. split.
    + intros H. exists m. split; [reflexivity | exact H].
    + intros [m' [[= <-] H]]. exact H.
  - split; [discriminate | intros [m' [H _]]; discriminate].
Qed.

Lemma statusIs_iff (e : Error) (code : Z) :
  statusIs e code = true <-> status e = Some code.
Proof.
  unfold statusIs. destruct (status e) as [c|].
  - rewrite Z.eqb_eq. split; congruence.
  - split; discriminate.
Qed.

(** [isQuotaError] is the disjunction the source writes out. *)
Lemma isQuotaError_iff (e : Error) :
  isQuotaError e = true <->
  status e = Some 429 \/
  exists m, message e = Some m /\
            (occursIn "429" m \/ occursIn "quota" m \/ occursIn "exhausted" m).
Proof.
  unfold isQuotaError.
  rewrite !orb_true_iff, !messageIncludes_iff, statusIs_iff. split.
  - intros [[[[m [Hm H]] | [m [Hm H]]] | [m [Hm H]]] | H].
    + right. exists m. auto.
    + right. exists m. auto.
    + right. exists m. auto.
    + left. exact H.
  - intros [H | [m [Hm [H | [H | H]]]]].
    + right. exact H.
    + left. left. left. exists m. auto.
    + left. left. right. exists m. auto.
    + left. right. exists m. auto.
Qed.

Lemma fold_backoff (delay : Z) (n : nat) :
  fold_right Z.add 0 (backoff delay n) = delay * (2 ^ Z.of_nat n - 1).
Proof.
  revert delay; induction n as [|n IH]; intros delay.
  - simpl. lia.
  - cbn [backoff fold_right]. rewrite IH, Nat2Z.inj_succ, Z.pow_succ_r by lia. ring.
Qed.

Lemma backoff_closed (delay : Z) (n : nat) :
  backoff delay n = map (fun i => delay * 2 ^ Z.of_nat i) (seq 0 n).
Proof.
  revert delay; induction n as [|n IH]; intros delay; [reflexivity|].
  cbn [backoff seq map]. rewrite IH, <- seq_shift, map_map. f_equal.
  - simpl. lia.
  - apply map_ext. intros i. rewrite Nat2Z.inj_succ, Z.pow_succ_r by lia. ring.
Qed.

Lemma pow2_sum_closed (k : nat) : pow2_sum k = 2 ^ Z.of_nat k - 1.
Proof.
  unfold pow2_sum. rewrite <- (Z.mul_1_l (2 ^ Z.of_nat k - 1)), <- fold_backoff, backoff_closed.
  f_equal. apply map_ext. intros i. lia.
Qed.

Section RetryFacts.

Variables (P T : Type).
Implicit Types (operation : Op P T) (p : P) (e : Error).

Lemma retry_resolved operation retries delay p v p1 :
  operation p = (Resolved v, p1) ->
  retryOperation operation retries delay p = (Resolved v, p1, [Invoke]).
Proof.
  intros H. destruct retries; simpl; unfold tryCatch, invoke; rewrite H; reflexivity.
Qed.

Lemma retry_terminal operation retries delay p e p1 :
  operation p = (Rejected e, p1) ->
  isQuotaError e = false ->
  retryOperation operation retries delay p = (Rejected e, p1, [Invoke]).
Proof.
  intros H Hq. destruct retries; simpl; unfold tryCatch, invoke, reject;
    rewrite H, ?Hq; reflexivity.
Qed.

Lemma retry_exhausted operation delay p e p1 :
  operation p = (Rejected e, p1) ->
  retryOperation operation 0 delay p = (Rejected e, p1, [Invoke]).
Proof.
  intros H. simpl; unfold tryCatch, invoke, reject; rewrite H; reflexivity.
Qed.

Lemma retry_transient operation retries delay p e p1 :
  operation p = (Rejected e, p1) ->
  isQuotaError e = true ->
  retryOperation operation (S retries) delay p =
    (settlement (retryOperation operation retries (delay * 2) p1),
     stateAfter (retryOperation operation retries (delay * 2) p1),
     Invoke :: Wait delay :: trace (retryOperation operation retries (delay * 2) p1)).
Proof.
  intros H Hq. cbn [retryOperation]. unfold tryCatch at 1, invoke at 1.
  rewrite H, Hq. unfold bind, sleep.
  destruct (retryOperation operation retries (delay * 2) p1) as [[r p2] tr].
  reflexivity.
Qed.

Lemma retry_final operation retries delay p (r : Outcome T) p1 :
  operation p = (r, p1) ->
  isFinal r = true ->
  retryOperation operation retries delay p = (r, p1, [Invoke]).
Proof.
  intros H Hf. destruct r as [v | e].
  - apply retry_resolved. exact H.
  - apply retry_terminal; [exact H|]. apply negb_true_iff. exact Hf.
Qed.

(** The wrapper against an operation that fails transiently [length errs]
    times and then settles with [r], a value or a terminal failure: when
    the transient failures fit the budget it settles with [r], having
    waited once per transient failure and never after [r]; otherwise it
    gives up on transient failure number [retries + 1]. *)
Lemma retry_spec errs : forall operation retries delay p (r : Outcome T),
  outcomes operation (S (List.length errs)) p = map Rejected errs ++ [r] ->
  forallb isQuotaError errs = true ->
  isFinal r = true ->
  let run := retryOperation operation retries delay p in
  ((List.length errs <= retries)%nat ->
     settlement run = r /\
     waits (trace run) = backoff delay (List.length errs) /\
     invocations (trace run) = S (List.length errs)) /\
  ((retries < List.length errs)%nat ->
     (exists e, nth_error errs retries = Some e /\ settlement run = Rejected e) /\
     waits (trace run) = backoff delay retries /\
     invocations (trace run) = S retries).
Proof.
  induction errs as [|e errs IH]; intros operation retries delay p r Hout Hq Hf run; subst run.
  - simpl in Hout. destruct (operation p) as [r0 p1] eqn:Hop.
    injection Hout as ->. rewrite (retry_final operation retries delay p r p1 Hop Hf). split.
    + intros _. repeat split; reflexivity.
    + simpl. lia.
  - cbn [outcomes List.length map app] in Hout.
    destruct (operation p) as [r0 p1] eqn:Hop.
    injection Hout as -> Hout. simpl in Hq. apply andb_true_iff in Hq as [Hq Hqs].
    destruct retries as [|retries].
    + rewrite (retry_exhausted operation delay p e p1 Hop). split; [simpl; lia|].
      intros _. split; [exists e; split; reflexivity|]. split; reflexivity.
    + rewrite (retry_transient operation retries delay p e p1 Hop Hq).
      specialize (IH operation retries (delay * 2) p1 r Hout Hqs Hf). cbv zeta in IH.
      destruct IH as [IHle IHlt].
      unfold settlement, trace, waits, invocations in *. cbn [fst snd flat_map filter app List.length].
      split; intros Hk; cbn [List.length] in Hk.
      * destruct IHle as (? & ? & ?); [lia|]. cbn [backoff]. repeat split; congruence.
      * destruct IHlt as (? & ? & ?); [lia|]. cbn [backoff nth_error]. repeat split; congruence.
Qed.

End RetryFacts.

Import Samples.

(** C1 (as amended).  An operation that fails with a transient error
    exactly [k] times and then succeeds, wrapped with [retries = 3] and
    [delay = 2000]: for [k <= 3] the wrapper resolves with the success
    value after the waits [2000 * 2^0, ..., 2000 * 2^(k-1)], in total
    [2000 * (2^0 + ... + 2^(k-1))]; for [k > 3] it rejects with the fourth
    transient error, the last one it saw, after exactly the three waits
    2000, 4000 and 8000. *)
Theorem retry_backoff_default (P T : Type) (operation : Op P T) (p : P)
    (errs : list Error) (v : T) :
  outcomes operation (S (List.length errs)) p = map Rejected errs ++ [Resolved v] ->
  forallb isQuotaError errs = true ->
  let k := List.length errs in
  let run := retryOperation operation 3 2000 p in
  ((k <= 3)%nat ->
     settlement run = Resolved v /\
     waits (trace run) = map (fun i => 2000 * 2 ^ Z.of_nat i) (seq 0 k) /\
     totalWait (trace run) = 2000 * pow2_sum k) /\
  ((3 < k)%nat ->
     (exists e, nth_error errs 3 = Some e /\ settlement run = Rejected e) /\
     waits (trace run) = [2000; 4000; 8000]).
Proof.
  intros Hout Hq k run.
  destruct (retry_spec P T errs operation 3%nat 2000 p (Resolved v) Hout Hq eq_refl) as [Hle Hlt].
  fold run in Hle, Hlt. fold k in Hle, Hlt. split; intros Hk.
  - destruct (Hle Hk) as (Hs & Hw & _). split; [exact Hs|].
    unfold totalWait. rewrite Hw, fold_backoff, pow2_sum_closed, backoff_closed.
    split; reflexivity.
  - destruct (Hlt Hk) as (He & Hw & _). split; [exact He | exact Hw].
Qed.

Lemma retry_backoff_default_witness :
  let operation := flaky 2 quotaError "ok" in
  let errs := [quotaError; quotaError] in
  outcomes operation 3 0%nat = map Rejected errs ++ [Resolved "ok"] /\
  forallb isQuotaError errs = true /\
  settlement (retryOperation operation 3 2000 0%nat) = Resolved "ok" /\
  totalWait (trace (retryOperation operation 3 2000 0%nat)) = 2000 * pow2_sum 2.
Proof.
  intros operation errs.
  assert (Hout : outcomes operation (S (List.length errs)) 0%nat
                 = map Rejected errs ++ [Resolved "ok"]) by reflexivity.
  assert (Hq : forallb isQuotaError errs = true) by reflexivity.
  split; [exact Hout|]. split; [exact Hq|].
  assert (Hk : (List.length errs <= 3)%nat) by (subst errs; simpl; lia).
  destruct (proj1 (retry_backoff_default nat string operation 0%nat errs "ok" Hout Hq) Hk)
    as (Hs & _ & Ht).
  split; [exact Hs | exact Ht].
Defined.

(** C1 as stated fails at [k = maxRetries]: an operation failing with a
    quota error exactly three times and then succeeding is resolved, after
    three waits, not rejected. *)
Lemma retry_resolves_after_three_failures :
  let operation := flaky 3 quotaError "ok" in
  let errs := [quotaError; quotaError; quotaError] in
  outcomes operation 4 0%nat = map Rejected errs ++ [Resolved "ok"] /\
  forallb isQuotaError errs = true /\
  (3 <= List.length errs)%nat /\
  retryOperation operation 3 2000 0%nat =
    (Resolved "ok", 4%nat, [Invoke; Wait 2000; Invoke; Wait 4000; Invoke; Wait 8000; Invoke]) /\
  (forall e, settlement (retryOperation operation 3 2000 0%nat) <> Rejected e).
Proof.
  intros operation errs. subst operation errs.
  split; [reflexivity|]. split; [reflexivity|]. split; [simpl; lia|].
  split; [reflexivity|]. intros e. vm_compute. discriminate.
Qed.

(** C2.  When the operation fails with an error [e]: if [e] is terminal
    the wrapper rejects with [e] at once, having invoked the operation
    once and waited never; [e] is transient exactly when its status is 429
    or its message contains one of the markers "429", "quota" and
    "exhausted"; and the wrapper invokes the operation again, or waits,
    only if [e] is transient. *)
Theorem terminal_error_not_retried (P T : Type) (operation : Op P T)
    (retries : nat) (delay : Z) (p p1 : P) (e : Error) :
  operation p = (Rejected e, p1) ->
  let run := retryOperation operation retries delay p in
  (isQuotaError e = false ->
     run = (Rejected e, p1, [Invoke]) /\
     waits (trace run) = [] /\ invocations (trace run) = 1%nat) /\
  (isQuotaError e = true <->
     status e = Some 429 \/
     exists m, message e = Some m /\
               (occursIn "429" m \/ occursIn "quota" m \/ occursIn "exhausted" m)) /\
  ((1 < invocations (trace run))%nat \/ waits (trace run) <> [] ->
     isQuotaError e = true).
Proof.
  intros Hop run. split; [|split].
  - intros Hq. subst run. rewrite (retry_terminal P T operation retries delay p e p1 Hop Hq).
    repeat split; reflexivity.
  - apply isQuotaError_iff.
  - intros Hmore. destruct (isQuotaError e) eqn:Hq; [reflexivity|].
    subst run. rewrite (retry_terminal P T operation retries delay p e p1 Hop Hq) in Hmore.
    unfold trace, invocations, waits in Hmore. simpl in Hmore.
    destruct Hmore as [H | H]; [lia | congruence].
Qed.

Lemma terminal_error_not_retried_witness :
  failing (T := string) authError 0%nat = (Rejected authError, 1%nat) /\
  isQuotaError authError = false /\
  retryOperation (failing (T := string) authError) 3 2000 0%nat
    = (Rejected authError, 1%nat, [Invoke]).
Proof.
  split; [reflexivity|]. split; [reflexivity|].
  apply (proj1 (terminal_error_not_retried nat string (failing authError) 3 2000
                  0%nat 1%nat authError eq_refl)).
  reflexivity.
Defined.

(* ------------------------------------------------------------------ *)
(** * Box capture *)
(* ------------------------------------------------------------------ *)

Section BoxCapture.

Import PDFViewer.

(** Comparing two doubles the other way round. *)
Lemma SFcompare_antisym (a b : spec_float) :
  SFcompare b a = option_map CompOpp (SFcompare a b).
Proof.
  destruct a as [sa | sa | | sa ma ea], b as [sb | sb | | sb mb eb]; cbn;
    try reflexivity; try (destruct sa; reflexivity); try (destruct sb; reflexivity);
    try (destruct sa, sb; reflexivity).
  destruct sa, sb; cbn; try reflexivity.
  - rewrite (Z.compare_antisym ea eb). destruct (ea ?= eb)%Z; cbn; try reflexivity.
    rewrite Pos.compare_cont_antisym. cbn.
    destruct (Pos.compare_cont Eq ma mb); reflexivity.
  - rewrite (Z.compare_antisym ea eb). destruct (ea ?= eb)%Z; cbn; try reflexivity.
    rewrite Pos.compare_cont_antisym. reflexivity.
Qed.

(** [a <= b] excludes [b < a], also on doubles. *)
Lemma leb_not_ltb (a b : float) : (a <=? b)%float = true -> (b <? a)%float = false.
Proof.
  rewrite leb_spec, ltb_spec. unfold SFleb, SFltb.
  rewrite (SFcompare_antisym (Prim2SF a) (Prim2SF b)).
  destruct (SFcompare (Prim2SF a) (Prim2SF b)) as [[| |]|]; cbn; congruence.
Qed.

Lemma last_cons_default {A : Type} (l : list A) (a d : A) :
  last (a :: l) d = last l a.
Proof.
  revert a d; induction l as [|b l IH]; intros a d; [reflexivity|].
  change (last (a :: b :: l) d) with (last (b :: l) d).
  rewrite (IH b d), (IH b a). reflexivity.
Qed.

(** Moves while selecting only replace [currentPos], each by the position
    relative to the page as it lies at that move. *)
Lemma gesture_moves (rest : list PointerEvent) (moves : list (Dom * MouseEvent)) :
  forall start current,
    gesture box (mkPageState true start current) (moveEvents moves ++ rest) =
    gesture box
      (mkPageState true start
         (last (map (fun m => getRelPos (fst m) (snd m)) moves) current)) rest.
Proof.
  induction moves as [|m moves IH]; intros start current; [reflexivity|].
  unfold moveEvents in *.
  cbn [map app gesture dispatch handleMouseMove isSelecting startPos].
  rewrite IH, last_cons_default.
  destruct (gesture box _ rest) as [st2 out2]. reflexivity.
Qed.

(** Moves while idle change nothing. *)
Lemma gesture_moves_idle (rest : list PointerEvent) (moves : list (Dom * MouseEvent)) :
  forall start current,
    gesture box (mkPageState false start current) (moveEvents moves ++ rest) =
    gesture box (mkPageState false start current) rest.
Proof.
  induction moves as [|m moves IH]; intros start current; [reflexivity|].
  unfold moveEvents in *.
  cbn [map app gesture dispatch handleMouseMove isSelecting].
  rewrite IH. destruct (gesture box _ rest) as [st2 out2]. reflexivity.
Qed.

(** A press, moves and a release come to [handleMouseUp] on the dragged
    state, whatever the state before the press. *)
Lemma gesture_drag (st : PageState) (dom0 : Dom) (e0 : MouseEvent)
    (moves : list (Dom * MouseEvent)) (domU : Dom) (now : Z) :
  gesture box st (MouseDown dom0 e0 :: moveEvents moves ++ [MouseUp domU now]) =
  (fst (handleMouseUp box domU (dragged dom0 e0 moves)),
   match snd (handleMouseUp box domU (dragged dom0 e0 moves)) with
   | Some url => [handleImageCapture url now]
   | None => []
   end).
Proof.
  cbn [gesture dispatch handleMouseDown].
  rewrite gesture_moves. fold (dragged dom0 e0 moves).
  cbn [gesture dispatch app].
  destruct (handleMouseUp box domU (dragged dom0 e0 moves)) as [st1 [url|]]; reflexivity.
Qed.

(** A drag during which the pointer leaves the page ends idle and emits
    nothing, whatever the moves before and after and whatever the
    document at the release. *)
Lemma gesture_leave (st : PageState) (dom0 : Dom) (e0 : MouseEvent)
    (before after : list (Dom * MouseEvent)) (domU : Dom) (now : Z) :
  gesture box st
    (MouseDown dom0 e0 :: moveEvents before ++ MouseLeave :: moveEvents after
       ++ [MouseUp domU now]) =
  (mkPageState false (getRelPos dom0 e0)
     (last (map (fun m => getRelPos (fst m) (snd m)) before) (getRelPos dom0 e0)), []).
Proof.
  cbn [gesture dispatch handleMouseDown].
  rewrite gesture_moves.
  cbn [gesture dispatch]. unfold handleMouseLeave. cbn [startPos currentPos].
  rewrite gesture_moves_idle. reflexivity.
Qed.

(** C3 (as amended).  A Box-mode gesture of a press, moves inside the page
    and a release always ends with the capture idle and emits at most one
    artifact.  With the width and height of the dragged rectangle as the
    handler computes them, in double precision from the positions relative
    to the page at the press and at the last move: it emits nothing if
    either is below 10; if both are at least 10, it emits exactly one
    Image artifact, carrying the crop, provided that at the release the
    page's canvas is present and the crop yields a data URL.  The same
    gesture with the pointer leaving the page between the press and the
    release emits nothing and ends idle. *)
Theorem box_capture_threshold (st : PageState) (dom0 : Dom) (e0 : MouseEvent)
    (moves : list (Dom * MouseEvent)) (domU : Dom) (now : Z) :
  let drag := dragged dom0 e0 moves in
  let result :=
    gesture box st (MouseDown dom0 e0 :: moveEvents moves ++ [MouseUp domU now]) in
  isSelecting (fst result) = false /\
  ((dragWidth drag <? 10)%float = true \/ (dragHeight drag <? 10)%float = true ->
   snd result = []) /\
  ((10 <=? dragWidth drag)%float = true -> (10 <=? dragHeight drag)%float = true ->
   forall page cv url,
     pageRef domU = Some page ->
     canvas page = Some cv ->
     captureRegion domU cv (dragLeft drag) (dragTop drag) (dragWidth drag) (dragHeight drag)
       = DataUrl url ->
     snd result = [Types.Selection.mkSelection Types.image url now]) /\
  (List.length (snd result) <= 1)%nat /\
  (forall before after : list (Dom * MouseEvent),
     let left :=
       gesture box st
         (MouseDown dom0 e0 :: moveEvents before ++ MouseLeave :: moveEvents after
            ++ [MouseUp domU now]) in
     isSelecting (fst left) = false /\ snd left = []).
Proof.
  intros drag result.
  assert (Hleave : forall before after : list (Dom * MouseEvent),
             let left :=
               gesture box st
                 (MouseDown dom0 e0 :: moveEvents before ++ MouseLeave :: moveEvents after
                    ++ [MouseUp domU now]) in
             isSelecting (fst left) = false /\ snd left = []).
  { intros before after left. subst left. rewrite gesture_leave. split; reflexivity. }
  subst result. rewrite gesture_drag. fold drag. cbn [fst snd].
  unfold handleMouseUp.
  change (isSelecting drag) with true. cbn [negb].
  fold (dragWidth drag) (dragHeight drag) (dragLeft drag) (dragTop drag).
  destruct (dragWidth drag <? 10)%float eqn:Hw;
    [|destruct (dragHeight drag <? 10)%float eqn:Hh]; cbn [orb fst snd].
  - split; [reflexivity|]. split; [reflexivity|]. split; [|split; [cbn; lia|exact Hleave]].
    intros Hw' _. apply leb_not_ltb in Hw'. congruence.
  - split; [reflexivity|]. split; [reflexivity|]. split; [|split; [cbn; lia|exact Hleave]].
    intros _ Hh'. apply leb_not_ltb in Hh'. congruence.
  - split; [|split; [|split; [|split; [|exact Hleave]]]].
    + destruct (pageRef domU) as [page|]; [|reflexivity].
      destruct (canvas page) as [cv|]; [|reflexivity].
      destruct (captureRegion domU cv _ _ _ _); reflexivity.
    + intros [H | H]; congruence.
    + intros _ _ page cv url Hpage Hcv Hcrop. rewrite Hpage, Hcv, Hcrop. reflexivity.
    + destruct (pageRef domU) as [page|]; [|cbn; lia].
      destruct (canvas page) as [cv|]; [|cbn; lia].
      destruct (captureRegion domU cv _ _ _ _); cbn; lia.
Qed.

End BoxCapture.

Lemma box_capture_threshold_witness :
  let e0 := PDFViewer.mkMouse 110 60 in
  let moves := [(renderedDom, PDFViewer.mkMouse 118 70); (renderedDom, PDFViewer.mkMouse 125 75)] in
  let drag := PDFViewer.dragged renderedDom e0 moves in
  (10 <=? PDFViewer.dragWidth drag)%float = true /\
  (10 <=? PDFViewer.dragHeight drag)%float = true /\
  snd (PDFViewer.gesture PDFViewer.box PDFViewer.initialPageState
         (PDFViewer.MouseDown renderedDom e0 :: PDFViewer.moveEvents moves
            ++ [PDFViewer.MouseUp renderedDom 1700000000000]))
  = [Types.Selection.mkSelection Types.image "data:image/png;base64,iVBORw0KGgo=" 1700000000000].
Proof.
  intros e0 moves drag.
  assert (Hw : (10 <=? PDFViewer.dragWidth drag)%float = true) by reflexivity.
  assert (Hh : (10 <=? PDFViewer.dragHeight drag)%float = true) by reflexivity.
  split; [exact Hw|]. split; [exact Hh|].
  exact (proj1 (proj2 (proj2 (box_capture_threshold PDFViewer.initialPageState renderedDom
                                e0 moves renderedDom 1700000000000)))
           Hw Hh _ _ _ eq_refl eq_refl eq_refl).
Defined.

(** The two drags the specification names, on a rendered page. *)
Example box_capture_5_by_20 :
  snd (PDFViewer.gesture PDFViewer.box PDFViewer.initialPageState
         [PDFViewer.MouseDown renderedDom (PDFViewer.mkMouse 110 60);
          PDFViewer.MouseMove renderedDom (PDFViewer.mkMouse 115 80);
          PDFViewer.MouseUp renderedDom 1]) = [].
Proof. reflexivity. Qed.

Example box_capture_15_by_15 :
  snd (PDFViewer.gesture PDFViewer.box PDFViewer.initialPageState
         [PDFViewer.MouseDown renderedDom (PDFViewer.mkMouse 110 60);
          PDFViewer.MouseMove renderedDom (PDFViewer.mkMouse 125 75);
          PDFViewer.MouseUp renderedDom 1])
  = [Types.Selection.mkSelection Types.image "data:image/png;base64,iVBORw0KGgo=" 1].
Proof. reflexivity. Qed.

(** The width is the one the handler computes: with the page at a
    fractional offset, a pointer that travels 10 pixels to the right (and
    15 down) gives a width just below 10, and nothing is emitted. *)
Example box_capture_rounded_width :
  let dom := offsetDom in
  let e0 := PDFViewer.mkMouse 7 60 in
  let e1 := PDFViewer.mkMouse 17 75 in
  (PDFViewer.dragWidth (PDFViewer.dragged dom e0 [(dom, e1)]) <? 10)%float = true /\
  snd (PDFViewer.gesture PDFViewer.box PDFViewer.initialPageState
         [PDFViewer.MouseDown dom e0; PDFViewer.MouseMove dom e1; PDFViewer.MouseUp dom 1])
  = [].
Proof. split; reflexivity. Qed.

(** The rectangle is the one between the positions relative to the page
    at each event: when the page scrolls up by 12 pixels during the drag,
    a pointer that travels 15 by 3 pixels captures a 15 by 15 region. *)
Example box_capture_scrolled_page :
  let e0 := PDFViewer.mkMouse 110 60 in
  let e1 := PDFViewer.mkMouse 125 63 in
  PDFViewer.dragHeight (PDFViewer.dragged renderedDom e0 [(scrolledDom, e1)]) = 15%float /\
  snd (PDFViewer.gesture PDFViewer.box PDFViewer.initialPageState
         [PDFViewer.MouseDown renderedDom e0; PDFViewer.MouseMove scrolledDom e1;
          PDFViewer.MouseUp scrolledDom 1])
  = [Types.Selection.mkSelection Types.image "data:image/png;base64,iVBORw0KGgo=" 1].
Proof. split; reflexivity. Qed.

(** C3 as stated fails: a 15 by 15 drag emits nothing when the page's
    canvas has not been rendered yet, and nothing when the pointer left
    the page before it was released. *)
Lemma box_capture_large_drag_without_artifact :
  let e0 := PDFViewer.mkMouse 110 60 in
  let e1 := PDFViewer.mkMouse 125 75 in
  PDFViewer.dragWidth (PDFViewer.dragged loadingDom e0 [(loadingDom, e1)]) = 15%float /\
  PDFViewer.dragHeight (PDFViewer.dragged loadingDom e0 [(loadingDom, e1)]) = 15%float /\
  snd (PDFViewer.gesture PDFViewer.box PDFViewer.initialPageState
         [PDFViewer.MouseDown loadingDom e0; PDFViewer.MouseMove loadingDom e1;
          PDFViewer.MouseUp loadingDom 1]) = [] /\
  snd (PDFViewer.gesture PDFViewer.box PDFViewer.initialPageState
         [PDFViewer.MouseDown renderedDom e0; PDFViewer.MouseMove renderedDom e1;
          PDFViewer.MouseLeave; PDFViewer.MouseUp renderedDom 1]) = [].
Proof.
  intros e0 e1. repeat split; reflexivity.
Qed.

(* ------------------------------------------------------------------ *)
(** * The history store *)
(* ------------------------------------------------------------------ *)

Section History.

Import Types TranslationPanel.

(** The three patches of the panel keep the id. *)
Lemma withResult_keepsId o t : keepsId (withResult o t).
Proof. intros item. reflexivity. Qed.

Lemma withError_keepsId msg : keepsId (withError msg).
Proof. intros item. reflexivity. Qed.

Lemma withExplanation_keepsId e srcs : keepsId (withExplanation e srcs).
Proof. intros item. reflexivity. Qed.

Lemma updateById_absent target patch prev :
  ~ In target (map id prev) -> updateById target patch prev = prev.
Proof.
  unfold updateById. induction prev as [|item prev IH]; intros Hnot; [reflexivity|].
  cbn [map] in *. destruct (Z.eqb_spec (id item) target) as [Heq | Hne].
  - exfalso. apply Hnot. left. exact Heq.
  - f_equal. apply IH. intros Hin. apply Hnot. right. exact Hin.
Qed.

Lemma updateById_updatesOnly target patch prev :
  keepsId patch -> updatesOnly (Some target) prev (updateById target patch prev).
Proof.
  intros Hid. unfold updatesOnly, updateById.
  induction prev as [|item prev IH]; cbn [map]; constructor; [|exact IH].
  destruct (Z.eqb_spec (id item) target) as [Heq | Hne].
  - split; [apply Hid | intros H; congruence].
  - split; reflexivity.
Qed.

Lemma updatesOnly_refl target prev : updatesOnly target prev prev.
Proof.
  unfold updatesOnly. induction prev; constructor; [split; reflexivity | assumption].
Qed.

Lemma updatesOnly_ids target before after :
  updatesOnly target before after -> map id after = map id before.
Proof.
  induction 1 as [|b a before after [Hid _] _ IH]; [reflexivity|].
  cbn [map]. rewrite Hid, IH. reflexivity.
Qed.

(** An update step touches at most the records under its target id. *)
Lemma step_updatesOnly st s :
  (forall selectionData now, s <> Arrive selectionData now) ->
  updatesOnly (targetOf s) (history st) (history (step st s)).
Proof.
  intros Hs. destruct s as [sel now | sel [[o t] | e] | target | target [[expl srcs] | e]];
    cbn [step targetOf settle deepDiveStart deepDiveSettle setLoading setHistory
         setDeepDiveLoadingId history].
  - exfalso. exact (Hs sel now eq_refl).
  - apply updateById_updatesOnly, withResult_keepsId.
  - apply updateById_updatesOnly, withError_keepsId.
  - apply updatesOnly_refl.
  - apply updateById_updatesOnly, withExplanation_keepsId.
  - apply updatesOnly_refl.
Qed.

Lemma step_arrive st selectionData now :
  history (step st (Arrive selectionData now)) = newEntry selectionData now :: history st.
Proof. reflexivity. Qed.

Lemma step_ids st s :
  map id (history (step st s)) =
  match s with
  | Arrive selectionData _ => Selection.id selectionData :: map id (history st)
  | _ => map id (history st)
  end.
Proof.
  destruct s as [sel now | sel r | target | target r].
  - reflexivity.
  - apply (updatesOnly_ids (targetOf (Settle sel r))), step_updatesOnly. discriminate.
  - reflexivity.
  - apply (updatesOnly_ids (targetOf (DeepDiveSettle target r))), step_updatesOnly. discriminate.
Qed.

(** The ids in the store after a schedule: the arrivals, newest first, on
    top of what was there. *)
Lemma run_ids steps : forall st,
  map id (history (run steps st)) = rev (arrivals steps) ++ map id (history st).
Proof.
  unfold run. induction steps as [|s steps IH]; intros st; [reflexivity|].
  cbn [fold_left]. rewrite IH, step_ids.
  destruct s; cbn [arrivals rev]; rewrite <- ?app_assoc; reflexivity.
Qed.

(** C4.  A schedule of arrivals with pairwise distinct ids, none of them
    in the store yet, interleaved in any way with the settlements of
    translations and of deep dives: the store then holds the arrived ids
    newest first, on top of the ids it held, each arrived id exactly once.
    Every arrival puts its placeholder on top; every other step keeps the
    records in place under their ids and changes at most the records with
    the id it targets. *)
Theorem history_one_record_per_id (steps : list Step) (st0 : PanelState) :
  NoDup (arrivals steps) ->
  (forall i, In i (arrivals steps) -> ~ In i (map id (history st0))) ->
  let h := history (run steps st0) in
  map id h = rev (arrivals steps) ++ map id (history st0) /\
  List.length h = (List.length (arrivals steps) + List.length (history st0))%nat /\
  (forall i, In i (arrivals steps) -> count_occ Z.eq_dec (map id h) i = 1%nat) /\
  (history st0 = [] -> map id h = rev (arrivals steps) /\ NoDup (map id h)) /\
  (forall st s,
     match s with
     | Arrive selectionData now =>
         history (step st s) = newEntry selectionData now :: history st
     | _ => updatesOnly (targetOf s) (history st) (history (step st s))
     end).
Proof.
  intros Hnodup Hfresh h.
  assert (Hids : map id h = rev (arrivals steps) ++ map id (history st0)).
  { subst h. apply run_ids. }
  split; [exact Hids|]. split; [|split; [|split]].
  - rewrite <- (length_map id h), Hids, length_app, length_rev, length_map. reflexivity.
  - intros i Hin. rewrite Hids, count_occ_app.
    rewrite (proj1 (count_occ_not_In Z.eq_dec _ i) (Hfresh i Hin)), Nat.add_0_r.
    apply NoDup_count_occ'; [apply NoDup_rev; exact Hnodup|].
    apply in_rev in Hin. exact Hin.
  - intros Hempty. rewrite Hids, Hempty, app_nil_r.
    split; [reflexivity | apply NoDup_rev; exact Hnodup].
  - intros st s. destruct s; try (apply step_updatesOnly; discriminate). reflexivity.
Qed.

End History.

Lemma history_one_record_per_id_witness :
  let steps :=
    [TranslationPanel.Arrive textSelection 10;
     TranslationPanel.Arrive imageSelection 20;
     TranslationPanel.Settle textSelection (Resolved (Str "neural network", Str "reseau de neurones"));
     TranslationPanel.DeepDiveSettle 1700000000001 (Resolved ("An explanation.", []));
     TranslationPanel.Settle imageSelection (Rejected quotaError)] in
  TranslationPanel.history TranslationPanel.emptyPanel = [] /\
  NoDup (TranslationPanel.arrivals steps) /\
  map Types.id (TranslationPanel.history (TranslationPanel.run steps TranslationPanel.emptyPanel))
    = [1700000000002; 1700000000001].
Proof.
  intros steps.
  assert (Hnd : NoDup (TranslationPanel.arrivals steps)).
  { subst steps. cbn. constructor; [|constructor; [|constructor]].
    - intros [H | []]. discriminate.
    - intros []. }
  split; [reflexivity|]. split; [exact Hnd|].
  exact (proj1 (proj1 (proj2 (proj2 (proj2
           (history_one_record_per_id steps TranslationPanel.emptyPanel Hnd
              (fun i _ (H : In i []) => H))))) eq_refl)).
Defined.

Section PanelFacts.

Import Types TranslationPanel.

(** C6.  When no record of the store carries the id, [updateById] with
    that id returns the store as it was, whatever the fields to set; so
    the settlement of a translation or of a deep dive whose record is gone
    leaves the history unchanged: same length, same order, same records. *)
Theorem updateById_absent_noop (target : Z) (prev : list TranslationResult) :
  ~ In target (map id prev) ->
  (forall patch, updateById target patch prev = prev) /\
  (forall st selectionData r,
     history st = prev -> Selection.id selectionData = target ->
     history (settle selectionData r st) = prev) /\
  (forall st r, history st = prev -> history (deepDiveSettle target r st) = prev).
Proof.
  intros Habsent. split; [|split].
  - intros patch. apply updateById_absent. exact Habsent.
  - intros st sel [[o t] | e] Hst Hid;
      cbn [settle setLoading setHistory history]; rewrite Hid, Hst;
      apply updateById_absent; exact Habsent.
  - intros st [[expl srcs] | e] Hst;
      cbn [deepDiveSettle setDeepDiveLoadingId setHistory history]; rewrite Hst;
      [apply updateById_absent; exact Habsent | reflexivity].
Qed.

(** C5 (as amended).  An arriving selection puts one pending record on top
    of the history before the provider is called: the record has the
    selection's id and an empty [translatedText]; its [originalText] is
    the selected text for a text selection and the placeholder
    "Reading text from image..." for an image selection.  The awaited
    call is made on the state that already holds the record. *)
Theorem arrival_prepends_pending (selectionData : Selection.SelectionData)
    (now : Z) (st : PanelState) :
  history (arrive selectionData now st) = newEntry selectionData now :: history st /\
  id (newEntry selectionData now) = Selection.id selectionData /\
  translatedText (newEntry selectionData now) = "" /\
  originalText (newEntry selectionData now) =
    match Selection.type selectionData with
    | text => Selection.content selectionData
    | image => "Reading text from image..."
    end /\
  (forall P generateContent JSON_parse rev env (p : P),
     processNewSelection generateContent JSON_parse rev env selectionData now st p =
     let run := request generateContent JSON_parse rev env selectionData p in
     (settle selectionData (settlement run) (arrive selectionData now st),
      stateAfter run, trace run)).
Proof.
  repeat split.
  intros P generateContent JSON_parse rev env p. unfold processNewSelection.
  destruct (request generateContent JSON_parse rev env selectionData p) as [[r p1] tr].
  reflexivity.
Qed.

(** The message shown for a failure: the usage-limit message exactly when
    the error's message contains "429", "quota" or "exhausted". *)
Lemma errorMessageFor_limit (e : Error) :
  errorMessageFor e = "Usage limit reached. Please wait a moment and try again." <->
  exists m, message e = Some m /\
            (occursIn "429" m \/ occursIn "quota" m \/ occursIn "exhausted" m).
Proof.
  unfold errorMessageFor.
  destruct (messageIncludes e "429" || messageIncludes e "quota" ||
            messageIncludes e "exhausted") eqn:E.
  - split; [intros _ | reflexivity].
    rewrite !orb_true_iff, !messageIncludes_iff in E.
    destruct E as [[[m [Hm H]] | [m [Hm H]]] | [m [Hm H]]]; exists m; auto.
  - split; [discriminate|]. intros [m [Hm H]]. exfalso.
    rewrite !orb_false_iff in E. destruct E as [[E1 E2] E3].
    assert (H1 : messageIncludes e "429" = true \/ messageIncludes e "quota" = true \/
                 messageIncludes e "exhausted" = true).
    { rewrite !messageIncludes_iff. destruct H as [H | [H | H]];
        [left | right; left | right; right]; exists m; auto. }
    destruct H1 as [H1 | [H1 | H1]]; congruence.
Qed.

(** The message does not depend on the error's status. *)
Lemma errorMessageFor_ignores_status (m : option string) (s : option Z) :
  errorMessageFor (mkError m s) = errorMessageFor (mkError m None).
Proof. reflexivity. Qed.

(** One whole run of the pipeline is an arrival followed by its
    settlement. *)
Lemma processNewSelection_as_steps (P : Type) generateContent JSON_parse rev env
    (selectionData : Selection.SelectionData) (now : Z) (st : PanelState) (p : P) :
  fst (fst (processNewSelection generateContent JSON_parse rev env selectionData now st p))
  = run [Arrive selectionData now;
         Settle selectionData
           (settlement (request generateContent JSON_parse rev env selectionData p))] st.
Proof.
  unfold processNewSelection.
  destruct (request generateContent JSON_parse rev env selectionData p) as [[r p1] tr].
  reflexivity.
Qed.

(** A failed run leaves [originalText] of every record as it was. *)
Lemma settle_rejected_keeps_source (selectionData : Selection.SelectionData)
    (e : Error) (st : PanelState) :
  map originalText (history (settle selectionData (Rejected e) st))
  = map originalText (history st).
Proof.
  cbn [settle setLoading setHistory history]. unfold updateById.
  rewrite map_map. apply map_ext. intros item.
  destruct (id item =? Selection.id selectionData); reflexivity.
Qed.

End PanelFacts.

Lemma updateById_absent_noop_witness :
  let prev := [TranslationPanel.newEntry textSelection 10] in
  ~ In 42 (map Types.id prev) /\
  TranslationPanel.updateById 42 (TranslationPanel.withError "Translation failed. Please try again.") prev
  = prev.
Proof.
  intros prev.
  assert (Habsent : ~ In 42 (map Types.id prev)).
  { subst prev. cbn. intros [H | []]. discriminate. }
  split; [exact Habsent|].
  exact (proj1 (updateById_absent_noop 42 prev Habsent) _).
Defined.

(** C5 as stated fails on the placeholder: for an image selection the
    pending record's source text is "Reading text from image...", not
    "extracting" followed by an ellipsis. *)
Lemma image_placeholder_differs :
  map Types.originalText
    (TranslationPanel.history (TranslationPanel.arrive imageSelection 10 TranslationPanel.emptyPanel))
  = [Str "Reading text from image..."] /\
  Types.originalText (TranslationPanel.newEntry imageSelection 10) <> extractingPlaceholder.
Proof.
  split; [reflexivity | discriminate].
Qed.

(** C7 at the failing input.  A provider failure carrying status 429 and a
    message without any of the markers is classified transient by the
    retry wrapper, retried three times (waits 2000, 4000, 8000) and then
    shown with the generic failure message, not the usage-limit one. *)
Lemma status_429_shown_as_generic_failure :
  isQuotaError status429 = true /\
  waits (snd (TranslationPanel.processNewSelection (refusing status429) sampleParse
                ServiceTs envWithKey textSelection 10 TranslationPanel.emptyPanel 0%nat))
  = [2000; 4000; 8000] /\
  map Types.translatedText
    (TranslationPanel.history
       (fst (fst (TranslationPanel.processNewSelection (refusing status429) sampleParse
                    ServiceTs envWithKey textSelection 10 TranslationPanel.emptyPanel 0%nat))))
  = [Str "Translation failed. Please try again."].
Proof.
  repeat split.
Qed.

(** The case the specification names: a provider failing with a message
    that contains "quota" exhausts the three retries and is shown with the
    usage-limit message; the source text stays. *)
Example quota_message_shown_as_limit :
  waits (snd (TranslationPanel.processNewSelection (refusing quotaError) sampleParse
                ServiceTs envWithKey textSelection 10 TranslationPanel.emptyPanel 0%nat))
  = [2000; 4000; 8000] /\
  map (fun r => (Types.originalText r, Types.translatedText r))
    (TranslationPanel.history
       (fst (fst (TranslationPanel.processNewSelection (refusing quotaError) sampleParse
                    ServiceTs envWithKey textSelection 10 TranslationPanel.emptyPanel 0%nat))))
  = [(Str "neural network", Str "Usage limit reached. Please wait a moment and try again.")].
Proof.
  repeat split.
Qed.

(* ------------------------------------------------------------------ *)
(** * The provider calls *)
(* ------------------------------------------------------------------ *)

Section ServiceFacts.

Variable P : Type.
Variable generateContent : string -> Request -> Op P Response.
Variable JSON_parse : string -> option Json.
Variable rev : Revision.
Variable env : Env.

Lemma outcomes_awaitThen {A B : Type} (call : Op P A) (body : A -> Outcome B) (n : nat) :
  forall p,
    outcomes (awaitThen call body) n p = map (continueWith body) (outcomes call n p).
Proof.
  induction n as [|n IH]; intros p; [reflexivity|].
  cbn [outcomes]. unfold awaitThen at 1.
  destruct (call p) as [[a | e] p1]; cbn [map continueWith]; rewrite IH; reflexivity.
Qed.

(** A wrapped provider call whose transient failures fit the retry budget
    settles with what the body makes of the first response. *)
Lemma retry_awaitThen {A B : Type} (call : Op P A) (body : A -> Outcome B)
    (p : P) (errs : list Error) (response : A) (v : B) :
  outcomes call (S (List.length errs)) p = map Rejected errs ++ [Resolved response] ->
  forallb isQuotaError errs = true ->
  (List.length errs <= defaultRetries)%nat ->
  body response = Resolved v ->
  settlement (retryOperation (awaitThen call body) defaultRetries defaultDelay p) = Resolved v /\
  waits (trace (retryOperation (awaitThen call body) defaultRetries defaultDelay p))
    = backoff defaultDelay (List.length errs).
Proof.
  intros Hout Hq Hk Hbody.
  assert (Hout' : outcomes (awaitThen call body) (S (List.length errs)) p
                  = map Rejected errs ++ [Resolved v]).
  { rewrite outcomes_awaitThen, Hout, map_app, map_map. cbn [map continueWith].
    rewrite Hbody. reflexivity. }
  destruct (proj1 (retry_spec P B errs _ defaultRetries defaultDelay p (Resolved v) Hout' Hq eq_refl) Hk)
    as (Hs & Hw & _).
  split; assumption.
Qed.

Lemma orElse_falsy (v : option string) (fallback : string) :
  truthy v = false -> orElse v fallback = fallback.
Proof.
  unfold truthy, orElse. destruct v as [s|]; [|reflexivity].
  destruct (String.eqb s ""); [reflexivity | discriminate].
Qed.


(** C10.  With a key configured, when the provider, after at most three
    transient failures, answers the translation request with an empty or
    absent text, [translateText] resolves with "Translation failed."; the
    pipeline then fills the record of a text selection with that string
    through its success path. *)
Theorem translateText_empty_response (selected : string) (p : P)
    (errs : list Error) (response : Response) :
  apiKey rev env <> "" ->
  outcomes (generateContent (apiKey rev env) (TranslateRequest selected))
    (S (List.length errs)) p = map Rejected errs ++ [Resolved response] ->
  forallb isQuotaError errs = true ->
  (List.length errs <= 3)%nat ->
  truthy (text response) = false ->
  settlement (translateText generateContent rev env selected p) = Resolved "Translation failed." /\
  (forall newId now st,
     hd_error
       (TranslationPanel.history
          (fst (fst (TranslationPanel.processNewSelection generateContent JSON_parse rev env
                       (Types.Selection.mkSelection Types.text selected newId) now st p))))
     = Some (Types.mkResult newId selected "Translation failed." Types.text None None None now)).
Proof.
  intros Hkey Hout Hq Hk Hempty.
  assert (Hs : settlement (translateText generateContent rev env selected p)
               = Resolved "Translation failed.").
  { unfold translateText. apply String.eqb_neq in Hkey. rewrite Hkey.
    refine (proj1 (retry_awaitThen _ _ p errs response _ Hout Hq Hk _)).
    rewrite (orElse_falsy _ _ Hempty). reflexivity. }
  split; [exact Hs|].
  intros newId now st. unfold TranslationPanel.processNewSelection, TranslationPanel.request.
  cbn [Types.Selection.type Types.Selection.content]. unfold bind at 1.
  destruct (translateText generateContent rev env selected p) as [[r p1] tr].
  unfold settlement in Hs. cbn [fst] in Hs. subst r.
  cbn [resolve fst]. unfold TranslationPanel.settle, TranslationPanel.arrive.
  cbn [TranslationPanel.setLoading TranslationPanel.setHistory TranslationPanel.setActiveId
       TranslationPanel.history TranslationPanel.updateById map hd_error Types.Selection.id
       TranslationPanel.newEntry Types.id].
  rewrite Z.eqb_refl. reflexivity.
Qed.

End ServiceFacts.


(** The well-formed document is returned as parsed. *)
Example analyzeImageRegion_parses_sample :
  settlement (analyzeImageRegion (answering (Some sampleJson)) sampleParse ServiceTs envWithKey
                "data:image/png;base64,iVBORw0KGgo=" 0%nat)
  = Resolved (JObject [("originalText", JString "Hello"); ("translatedText", JString "Bonjour")]).
Proof. reflexivity. Qed.


Lemma translateText_empty_response_witness :
  apiKey ServiceTs envWithKey <> "" /\
  truthy (text (mkResponse (Some "") None)) = false /\
  settlement (translateText (answering (Some "")) ServiceTs envWithKey "neural network" 0%nat)
  = Resolved "Translation failed.".
Proof.
  assert (Hkey : apiKey ServiceTs envWithKey <> "") by discriminate.
  split; [exact Hkey|]. split; [reflexivity|].
  exact (proj1 (translateText_empty_response nat (answering (Some "")) sampleParse ServiceTs
                  envWithKey "neural network" 0%nat [] (mkResponse (Some "") None)
                  Hkey eq_refl eq_refl (Nat.le_0_l 3) eq_refl)).
Defined.

(* ------------------------------------------------------------------ *)
(** * The live session *)
(* ------------------------------------------------------------------ *)

Section LiveFacts.

Import LiveAssistant.

Variable P : Type.
Variable Handle : Type.
Variable liveConnect : string -> Op P Handle.
Variable rev : Revision.
Variable env : Env.






End LiveFacts.



(* ------------------------------------------------------------------ *)
(** * More on the retry wrapper *)
(* ------------------------------------------------------------------ *)

Import MoreSamples.

Section RetryShape.

Variables (P T : Type).

Lemma retry_shape_single (operation : Op P T) (retries : nat) (delay : Z) (p p1 : P)
    (r : Outcome T) :
  operation p = (r, p1) ->
  retryOperation operation retries delay p = (r, p1, [Invoke]) ->
  isFinal r = true \/ 0%nat = retries ->
  let run := retryOperation operation retries delay p in
  let n := List.length (waits (trace run)) in
  (n <= retries)%nat /\
  waits (trace run) = backoff delay n /\
  invocations (trace run) = S n /\
  (exists errs,
     List.length errs = n /\
     forallb isQuotaError errs = true /\
     outcomes operation (S n) p = map Rejected errs ++ [settlement run]) /\
  (isFinal (settlement run) = true \/ n = retries).
Proof.
  intros Hop Hrun Hstop. cbv zeta. rewrite Hrun. cbn.
  split; [lia|]. split; [reflexivity|]. split; [reflexivity|]. split; [|exact Hstop].
  exists []. cbn. rewrite Hop. repeat split.
Qed.

Lemma retry_shape (operation : Op P T) (retries : nat) (delay : Z) (p : P) :
  let run := retryOperation operation retries delay p in
  let n := List.length (waits (trace run)) in
  (n <= retries)%nat /\
  waits (trace run) = backoff delay n /\
  invocations (trace run) = S n /\
  (exists errs,
     List.length errs = n /\
     forallb isQuotaError errs = true /\
     outcomes operation (S n) p = map Rejected errs ++ [settlement run]) /\
  (isFinal (settlement run) = true \/ n = retries).
Proof.
  revert delay p. induction retries as [|retries IH]; intros delay p.
  - destruct (operation p) as [[v | e] p1] eqn:Hop.
    + apply (retry_shape_single operation 0 delay p p1 (Resolved v) Hop);
        [apply retry_resolved; exact Hop | left; reflexivity].
    + apply (retry_shape_single operation 0 delay p p1 (Rejected e) Hop);
        [apply retry_exhausted; exact Hop | right; reflexivity].
  - destruct (operation p) as [[v | e] p1] eqn:Hop.
    + apply (retry_shape_single operation (S retries) delay p p1 (Resolved v) Hop);
        [apply retry_resolved; exact Hop | left; reflexivity].
    + destruct (isQuotaError e) eqn:Hq.
      * rewrite (retry_transient P T operation retries delay p e p1 Hop Hq).
        specialize (IH (delay * 2) p1). cbv zeta in IH.
        destruct IH as (Hn & Hw & Hi & [errs (Hlen & Hqs & Hout)] & Hstop).
        unfold settlement, trace, waits, invocations in *.
        cbn [fst snd flat_map filter app List.length].
        split; [lia|]. split; [cbn [backoff]; congruence|]. split; [congruence|]. split.
        -- exists (e :: errs). cbn [List.length forallb map app outcomes].
           rewrite Hop, Hq, Hqs, Hlen. split; [reflexivity|]. split; [reflexivity|].
           f_equal. exact Hout.
        -- destruct Hstop as [Hstop | Hstop]; [left; exact Hstop | right; lia].
      * apply (retry_shape_single operation (S retries) delay p p1 (Rejected e) Hop);
          [apply retry_terminal; assumption |].
        left. unfold isFinal. rewrite Hq. reflexivity.
Qed.

(** The events of a run, in their order: invocations and waits
    alternate, starting and ending with an invocation. *)
Lemma retry_trace_schedule (operation : Op P T) (retries : nat) (delay : Z) (p : P) :
  let run := retryOperation operation retries delay p in
  trace run = RetrySchedule.schedule delay (List.length (waits (trace run))).
Proof.
  revert delay p. induction retries as [|retries IH]; intros delay p; cbv zeta.
  - destruct (operation p) as [[v | e] p1] eqn:Hop.
    + rewrite (retry_resolved P T operation 0 delay p v p1 Hop). reflexivity.
    + rewrite (retry_exhausted P T operation delay p e p1 Hop). reflexivity.
  - destruct (operation p) as [[v | e] p1] eqn:Hop.
    + rewrite (retry_resolved P T operation (S retries) delay p v p1 Hop). reflexivity.
    + destruct (isQuotaError e) eqn:Hq.
      * rewrite (retry_transient P T operation retries delay p e p1 Hop Hq).
        specialize (IH (delay * 2) p1). cbv zeta in IH.
        unfold trace at 1 3. cbn [snd]. unfold waits.
        cbn [flat_map app List.length RetrySchedule.schedule].
        fold (waits (trace (retryOperation operation retries (delay * 2) p1))).
        rewrite <- IH. reflexivity.
      * rewrite (retry_terminal P T operation (S retries) delay p e p1 Hop Hq). reflexivity.
Qed.

(** X1.  Whatever the operation does, a run of the wrapper is a number
    [n <= retries] of waits [delay, 2 * delay, ...] between [n + 1]
    invocations: its events are, in this order, an invocation, the wait
    [delay], an invocation, the wait [2 * delay], ..., and a last
    invocation.  The first [n] invocations failed with quota errors and
    the wrapper settles with exactly what the last invocation settled
    with; it stops on a value, on a failure that is not a quota error, or
    with the budget used up. *)
Theorem retry_run_shape (operation : Op P T) (retries : nat) (delay : Z) (p : P) :
  let run := retryOperation operation retries delay p in
  let n := List.length (waits (trace run)) in
  (n <= retries)%nat /\
  trace run = RetrySchedule.schedule delay n /\
  waits (trace run) = backoff delay n /\
  invocations (trace run) = S n /\
  (exists errs,
     List.length errs = n /\
     forallb isQuotaError errs = true /\
     outcomes operation (S n) p = map Rejected errs ++ [settlement run]) /\
  (isFinal (settlement run) = true \/ n = retries).
Proof.
  destruct (retry_shape operation retries delay p) as (Hn & Hw & Hi & Herrs & Hstop).
  cbv zeta. split; [exact Hn|]. split; [apply retry_trace_schedule|].
  split; [exact Hw|]. split; [exact Hi|]. split; [exact Herrs | exact Hstop].
Qed.

Lemma retry_wait_bound (operation : Op P T) (retries : nat) (delay : Z) (p : P) :
  0 <= delay ->
  let run := retryOperation operation retries delay p in
  0 <= totalWait (trace run) <= delay * (2 ^ Z.of_nat retries - 1) /\
  (invocations (trace run) <= S retries)%nat.
Proof.
  intros Hdelay run.
  destruct (retry_shape operation retries delay p) as (Hn & Hw & Hi & _).
  fold run in Hn, Hw, Hi. unfold totalWait. rewrite Hw, Hi, fold_backoff.
  set (n := List.length (waits (trace run))) in *.
  assert (Hpos : 1 <= 2 ^ Z.of_nat n) by (apply (Z.pow_le_mono_r 2 0); lia).
  assert (Hmono : 2 ^ Z.of_nat n <= 2 ^ Z.of_nat retries) by (apply Z.pow_le_mono_r; lia).
  split; [nia | lia].
Qed.

(** X2.  With a delay that is not negative the wrapper waits in total at
    most [delay * (2^retries - 1)]: with the defaults, at most 14000 ms
    around at most four invocations. *)
Theorem retry_total_wait_bound (operation : Op P T) (retries : nat) (delay : Z) (p : P) :
  0 <= delay ->
  let run := retryOperation operation retries delay p in
  0 <= totalWait (trace run) <= delay * (2 ^ Z.of_nat retries - 1) /\
  (invocations (trace run) <= S retries)%nat.
Proof.
  exact (retry_wait_bound operation retries delay p).
Qed.

End RetryShape.

Lemma retry_total_wait_bound_witness :
  0 <= 2000 /\
  totalWait (trace (retryOperation (failing (T := string) quotaError) 3 2000 0%nat)) <= 14000.
Proof.
  assert (H : 0 <= 2000) by lia.
  split; [exact H|].
  exact (proj2 (proj1 (retry_total_wait_bound nat string (failing quotaError) 3 2000 0%nat H))).
Defined.

(* ------------------------------------------------------------------ *)
(** * The API key *)
(* ------------------------------------------------------------------ *)

Lemma truthy_orElse (v : option string) :
  truthy v = true -> Some (orElse v "") = v /\ orElse v "" <> "".
Proof.
  unfold truthy, orElse. destruct v as [s|]; [|discriminate].
  destruct (String.eqb_spec s ""); [discriminate|]. intros _. split; [reflexivity | assumption].
Qed.

Lemma falsy_orElse (v : option string) : truthy v = false -> orElse v "" = "".
Proof.
  unfold truthy, orElse. destruct v as [s|]; [|reflexivity].
  destruct (String.eqb s ""); [reflexivity | discriminate].
Qed.

(** X3.  The key lookup.  The later revision finds no key exactly when
    none of [VITE_API_KEY], [REACT_APP_API_KEY] and [API_KEY] is set to a
    non-empty string, and otherwise takes the first that is, in that
    order; the first revision looks at [API_KEY] alone. *)
Theorem api_key_lookup (env : Env) :
  (apiKey Part000 env = "" <->
     truthy (VITE_API_KEY env) = false /\
     truthy (REACT_APP_API_KEY env) = false /\
     truthy (API_KEY env) = false) /\
  (truthy (VITE_API_KEY env) = true -> Some (apiKey Part000 env) = VITE_API_KEY env) /\
  (truthy (VITE_API_KEY env) = false -> truthy (REACT_APP_API_KEY env) = true ->
     Some (apiKey Part000 env) = REACT_APP_API_KEY env) /\
  (truthy (VITE_API_KEY env) = false -> truthy (REACT_APP_API_KEY env) = false ->
     apiKey Part000 env = apiKey ServiceTs env) /\
  (apiKey ServiceTs env = "" <-> truthy (API_KEY env) = false).
Proof.
  assert (Hnode : apiKey ServiceTs env = "" <-> truthy (API_KEY env) = false).
  { cbn [apiKey]. split.
    - intros H. destruct (truthy (API_KEY env)) eqn:E; [|reflexivity].
      destruct (truthy_orElse _ E) as [_ Hne]. contradiction.
    - apply falsy_orElse. }
  split; [|split; [|split; [|split; [|exact Hnode]]]].
  - cbn [apiKey]. unfold getApiKey.
    destruct (truthy (VITE_API_KEY env)) eqn:Ev.
    { destruct (truthy_orElse _ Ev) as [_ Hne]. split; [contradiction | intros [H _]; discriminate]. }
    destruct (truthy (REACT_APP_API_KEY env)) eqn:Er.
    { destruct (truthy_orElse _ Er) as [_ Hne].
      split; [contradiction | intros [_ [H _]]; discriminate]. }
    destruct (truthy (API_KEY env)) eqn:Ea.
    { destruct (truthy_orElse _ Ea) as [_ Hne].
      split; [contradiction | intros [_ [_ H]]; discriminate]. }
    split; [intros _; repeat split | reflexivity].
  - intros Ev. cbn [apiKey]. unfold getApiKey. rewrite Ev. apply truthy_orElse. exact Ev.
  - intros Ev Er. cbn [apiKey]. unfold getApiKey. rewrite Ev, Er. apply truthy_orElse. exact Er.
  - intros Ev Er. cbn [apiKey]. unfold getApiKey. rewrite Ev, Er.
    destruct (truthy (API_KEY env)) eqn:Ea; [reflexivity|].
    symmetry. apply falsy_orElse. exact Ea.
Qed.

Lemma api_key_lookup_witness :
  truthy (VITE_API_KEY envVite) = true /\
  Some (apiKey Part000 envVite) = Some "vite-key" /\ apiKey ServiceTs envVite = "node-key".
Proof.
  assert (H : truthy (VITE_API_KEY envVite) = true) by reflexivity.
  split; [exact H|]. split; [|reflexivity].
  exact (proj1 (proj2 (api_key_lookup envVite)) H).
Defined.

Section KeyGuard.

Variable P : Type.
Variable generateContent : string -> Request -> Op P Response.
Variable JSON_parse : string -> option Json.
Variable generateAudio : string -> string -> Op P (option string).
Variable AudioBuffer : Type.
Variable decodeAudio : string -> Outcome AudioBuffer.
Variable rev : Revision.
Variable env : Env.

(** X4.  Without a key the four services are rejected with the
    missing-key error before anything is asked of the provider: no
    invocation, no wait, the provider untouched. *)
Theorem missing_key_rejects_before_request (input : string) (p : P) :
  apiKey rev env = "" ->
  translateText generateContent rev env input p = (Rejected (missingKey rev), p, []) /\
  analyzeImageRegion generateContent JSON_parse rev env input p
    = (Rejected (missingKey rev), p, []) /\
  explainWithSearch generateContent rev env input p = (Rejected (missingKey rev), p, []) /\
  Speech.generateSpeech generateAudio decodeAudio rev env input p
    = (Rejected (missingKey rev), p, []).
Proof.
  intros Hkey.
  unfold translateText, analyzeImageRegion, explainWithSearch, Speech.generateSpeech.
  rewrite Hkey. repeat split.
Qed.

End KeyGuard.

Lemma missing_key_rejects_before_request_witness :
  apiKey Part000 envWithoutKey = "" /\
  translateText (answering (Some "bonjour")) Part000 envWithoutKey "hello" 0%nat
  = (Rejected (missingKey Part000), 0%nat, []).
Proof.
  assert (H : apiKey Part000 envWithoutKey = "") by reflexivity.
  split; [exact H|].
  exact (proj1 (missing_key_rejects_before_request nat (answering (Some "bonjour")) sampleParse
                  silentProvider unit (fun _ => Resolved tt) Part000 envWithoutKey
                  "hello" 0%nat H)).
Defined.

(* ------------------------------------------------------------------ *)
(** * The text helpers *)
(* ------------------------------------------------------------------ *)

Section TextHelpers.

Import Chars.

Lemma startsWith_head (c d : ascii) (s sub : string) :
  Ascii.eqb d c = false -> startsWith (String d s) (String c sub) = false.
Proof.
  intros H. cbn [startsWith]. rewrite Ascii.eqb_sym, H. reflexivity.
Qed.

Lemma startsWith_app (pre rest : string) : startsWith (pre ++ rest)%string pre = true.
Proof. apply startsWith_iff. exists rest. reflexivity. Qed.

Lemma drop_app (pre rest : string) : drop (String.length pre) (pre ++ rest)%string = rest.
Proof. induction pre as [|c pre IH]; [destruct rest; reflexivity | exact IH]. Qed.

(** No fence starts at a character that is not a backtick, unless it is a
    line feed followed by backticks. *)
Lemma fenceMatch_free (c : ascii) (body tail : string) :
  Ascii.eqb c backtick = false ->
  freeOf backtick body = true ->
  tail = "" \/ tail = String LF "```" ->
  fenceMatch (String c (body ++ tail)) = 0%nat.
Proof.
  intros Hc Hbody Htail. unfold fenceMatch.
  rewrite (startsWith_head "`" c _ _ Hc).
  replace (startsWith (String c (body ++ tail)) "```") with false
    by (symmetry; apply startsWith_head; exact Hc).
  cbn [startsWith]. destruct (Ascii.eqb LF c); [|reflexivity]. cbn [andb].
  destruct body as [|d body].
  - destruct Htail as [-> | ->]; reflexivity.
  - cbn [freeOf] in Hbody. apply andb_true_iff in Hbody as [Hd _].
    apply negb_true_iff in Hd. cbn [append]. rewrite (startsWith_head "`" d _ _ Hd). reflexivity.
Qed.

Lemma removeFences_free (body tail : string) :
  freeOf backtick body = true ->
  tail = "" \/ tail = String LF "```" ->
  removeFences 0 (body ++ tail) = body.
Proof.
  intros Hbody Htail. induction body as [|c body IH].
  - destruct Htail as [-> | ->]; reflexivity.
  - cbn [freeOf] in Hbody. apply andb_true_iff in Hbody as [Hc Hbody].
    apply negb_true_iff in Hc. cbn [append removeFences].
    rewrite (fenceMatch_free c body tail Hc Hbody Htail), (IH Hbody). reflexivity.
Qed.

Lemma startsWith_empty (s : string) : startsWith s "" = true.
Proof. destruct s; reflexivity. Qed.

(** The opening fence and its line feed go first. *)
Lemma removeFences_fenced (body : string) :
  removeFences 0 (fenced body) = removeFences 0 (body ++ String LF "```").
Proof.
  unfold fenced. cbn [append].
  set (rest := (body ++ String LF "```")%string).
  match goal with
  | |- removeFences 0 ?s = _ => assert (Hm : fenceMatch s = 8%nat)
  end.
  { unfold fenceMatch. cbn. rewrite startsWith_empty. reflexivity. }
  cbn [removeFences]. rewrite Hm. reflexivity.
Qed.

(** X5.  [cleanJson] on a body without backticks: wrapped in a
    [```json] fence, or not wrapped at all, it gives the body without its
    surrounding white space. *)
Theorem cleanJson_unwraps_fence (body : string) :
  freeOf backtick body = true ->
  cleanJson (fenced body) = trim body /\ cleanJson body = trim body.
Proof.
  intros Hbody. unfold cleanJson. split; f_equal.
  - rewrite removeFences_fenced.
    apply (removeFences_free body (String LF "```") Hbody). right. reflexivity.
  - rewrite <- (removeFences_free body "" Hbody) at 2 by (left; reflexivity).
    f_equal. clear. induction body; [reflexivity | cbn [append]; congruence].
Qed.

Lemma dropWordChars_word (w rest : string) :
  allWordChars w = true ->
  dropWordChars (w ++ String ";" rest) = String ";" rest.
Proof.
  induction w as [|c w IH]; intros Hw; [reflexivity|].
  cbn [allWordChars] in Hw. apply andb_true_iff in Hw as [Hc Hw].
  cbn [append dropWordChars]. rewrite Hc. apply IH. exact Hw.
Qed.

(** X6.  The data URL prefix: [data:image/<subtype>;base64,] with a
    non-empty subtype of word characters is removed and the payload is
    what remains; a string that does not start with [data:image/] is
    returned as it is. *)
Theorem stripDataUrlPrefix_payload (subtype payload : string) :
  allWordChars subtype = true ->
  subtype <> "" ->
  stripDataUrlPrefix ("data:image/" ++ subtype ++ ";base64," ++ payload) = payload /\
  (forall other, startsWith other "data:image/" = false -> stripDataUrlPrefix other = other).
Proof.
  intros Hw Hne. split.
  - unfold stripDataUrlPrefix. rewrite startsWith_app.
    change 11%nat with (String.length "data:image/"). rewrite drop_app.
    destruct subtype as [|c w]; [contradiction|].
    cbn [allWordChars] in Hw. apply andb_true_iff in Hw as [Hc Hw'].
    change (String c w ++ ";base64," ++ payload)%string
      with (String c (w ++ String ";" ("base64," ++ payload)))%string.
    cbn [dropWordChars]. rewrite Hc, (dropWordChars_word w _ Hw').
    change (String ";" ("base64," ++ payload))%string with (";base64," ++ payload)%string.
    rewrite startsWith_app. change 8%nat with (String.length ";base64,").
    rewrite drop_app. reflexivity.
  - intros other Hno. unfold stripDataUrlPrefix. rewrite Hno. reflexivity.
Qed.

End TextHelpers.

Lemma cleanJson_unwraps_fence_witness :
  Chars.freeOf Chars.backtick sampleJson = true /\
  cleanJson (Chars.fenced sampleJson) = sampleJson.
Proof.
  assert (H : Chars.freeOf Chars.backtick sampleJson = true) by reflexivity.
  split; [exact H|].
  exact (eq_trans (proj1 (cleanJson_unwraps_fence sampleJson H)) eq_refl).
Defined.

Lemma stripDataUrlPrefix_payload_witness :
  Chars.allWordChars "png" = true /\ "png" <> "" /\
  stripDataUrlPrefix "data:image/png;base64,iVBORw0KGgo=" = "iVBORw0KGgo=".
Proof.
  assert (Hw : Chars.allWordChars "png" = true) by reflexivity.
  assert (Hne : "png" <> "") by discriminate.
  split; [exact Hw|]. split; [exact Hne|].
  exact (proj1 (stripDataUrlPrefix_payload "png" "iVBORw0KGgo=" Hw Hne)).
Defined.

(* ------------------------------------------------------------------ *)
(** * What the services resolve with *)
(* ------------------------------------------------------------------ *)

Section ServiceResults.

Variable P : Type.
Variable generateContent : string -> Request -> Op P Response.
Variable JSON_parse : string -> option Json.
Variable rev : Revision.
Variable env : Env.

Lemma outcomes_from_operation {T : Type} (operation : Op P T) (n : nat) :
  forall p r, In r (outcomes operation n p) -> exists p0, fst (operation p0) = r.
Proof.
  induction n as [|n IH]; intros p r Hin; [destruct Hin|].
  cbn [outcomes] in Hin. destruct (operation p) as [r0 p1] eqn:Hop.
  destruct Hin as [<- | Hin].
  - exists p. rewrite Hop. reflexivity.
  - exact (IH p1 r Hin).
Qed.

(** Whatever a wrapped call settles with, some invocation of the
    operation settled with. *)
Lemma retry_settlement_from_operation {T : Type} (operation : Op P T)
    (retries : nat) (delay : Z) (p : P) :
  exists p0, fst (operation p0) = settlement (retryOperation operation retries delay p).
Proof.
  destruct (retry_shape P T operation retries delay p)
    as (_ & _ & _ & [errs (_ & _ & Hout)] & _).
  eapply outcomes_from_operation. rewrite Hout.
  apply in_or_app. right. left. reflexivity.
Qed.

Lemma awaitThen_resolved {A B : Type} (call : Op P A) (body : A -> Outcome B) (p : P) (v : B) :
  fst (awaitThen call body p) = Resolved v -> exists a, body a = Resolved v.
Proof.
  unfold awaitThen. destruct (call p) as [[a | e] p1]; cbn [fst]; intros H.
  - exists a. exact H.
  - discriminate.
Qed.

Lemma orElse_nonempty (v : option string) (fallback : string) :
  fallback <> "" -> orElse v fallback <> "".
Proof.
  intros Hf. unfold orElse. destruct v as [s|]; [|exact Hf].
  destruct (String.eqb_spec s ""); assumption.
Qed.

(** Membership in, and order of, the sources kept from the grounding
    chunks. *)
Lemma collectSources_In (chunks : list GroundingChunk) (source : Types.SearchSource) :
  In source (collectSources chunks) <->
  exists chunk,
    In chunk chunks /\
    web chunk = Some (mkWeb (Some (Types.uri source)) (Some (Types.title source))) /\
    Types.uri source <> "" /\ Types.title source <> "".
Proof.
  induction chunks as [|chunk chunks IH].
  - split; [intros [] | intros [chunk [[] _]]].
  - cbn [collectSources].
    assert (Hskip : (exists c, In c chunks /\
                       web c = Some (mkWeb (Some (Types.uri source)) (Some (Types.title source))) /\
                       Types.uri source <> "" /\ Types.title source <> "") ->
                    exists c, In c (chunk :: chunks) /\
                       web c = Some (mkWeb (Some (Types.uri source)) (Some (Types.title source))) /\
                       Types.uri source <> "" /\ Types.title source <> "").
    { intros [c [Hin H]]. exists c. split; [right; exact Hin | exact H]. }
    destruct (web chunk) as [[[u|] [t|]]|] eqn:Hweb;
      try (rewrite IH; split; [exact Hskip |];
           intros [c [[<- | Hin] [Hw H]]]; [congruence | exists c; auto]).
    destruct (String.eqb_spec u ""), (String.eqb_spec t ""); cbn [negb andb];
      try (rewrite IH; split; [exact Hskip |];
           intros [c [[<- | Hin] [Hw [Hu Ht]]]]; [congruence | exists c; auto]).
    cbn [In]. rewrite IH. split.
    + intros [<- | H]; [|exact (Hskip H)].
      exists chunk. cbn. auto.
    + intros [c [[<- | Hin] [Hw H]]].
      * left. destruct source as [t' u']. cbn in *. congruence.
      * right. exists c. auto.
Qed.



Lemma service_texts_not_empty (input : string) (p : P) :
  (forall translated,
     settlement (translateText generateContent rev env input p) = Resolved translated ->
     translated <> "") /\
  (forall explanation sources,
     settlement (explainWithSearch generateContent rev env input p)
       = Resolved (explanation, sources) ->
     explanation <> "" /\
     Forall (fun source => Types.title source <> "" /\ Types.uri source <> "") sources).
Proof.
  split.
  - intros translated. unfold translateText.
    destruct (String.eqb (apiKey rev env) ""); [discriminate|].
    intros Hs.
    destruct (retry_settlement_from_operation
                (awaitThen (generateContent (apiKey rev env) (TranslateRequest input))
                   (fun response => Resolved (orElse (text response) "Translation failed.")))
                defaultRetries defaultDelay p) as [p0 Hp0].
    rewrite Hs in Hp0. apply awaitThen_resolved in Hp0 as [response Hbody].
    injection Hbody as <-. apply orElse_nonempty. discriminate.
  - intros explanation sources. unfold explainWithSearch.
    destruct (String.eqb (apiKey rev env) ""); [discriminate|].
    intros Hs.
    match type of Hs with
    | settlement (retryOperation ?op _ _ _) = _ =>
        destruct (retry_settlement_from_operation op defaultRetries defaultDelay p) as [p0 Hp0]
    end.
    rewrite Hs in Hp0. apply awaitThen_resolved in Hp0 as [response Hbody].
    injection Hbody as <- <-. split; [apply orElse_nonempty; discriminate|].
    apply Forall_forall. intros source Hin.
    apply collectSources_In in Hin as [chunk (_ & _ & Hu & Ht)]. split; assumption.
Qed.

(** X8.  What the translation and the explanation services resolve with
    is never empty: a resolved translation is a non-empty string, and a
    resolved explanation is a non-empty string with sources that all have
    a title and a uri. *)
Theorem resolved_texts_are_not_empty (input : string) (p : P) :
  (forall translated,
     settlement (translateText generateContent rev env input p) = Resolved translated ->
     translated <> "") /\
  (forall explanation sources,
     settlement (explainWithSearch generateContent rev env input p)
       = Resolved (explanation, sources) ->
     explanation <> "" /\
     Forall (fun source => Types.title source <> "" /\ Types.uri source <> "") sources).
Proof.
  exact (service_texts_not_empty input p).
Qed.

(** X9.  An answer without text to the OCR request is a failure of its
    own, "No response from model", which is not a quota error: the call
    is rejected with it after one invocation and no wait. *)
Theorem analyzeImageRegion_without_text (base64Image : string) (p p1 : P)
    (response : Response) :
  apiKey rev env <> "" ->
  generateContent (apiKey rev env) (AnalyzeRequest (stripDataUrlPrefix base64Image)) p
    = (Resolved response, p1) ->
  truthy (text response) = false ->
  analyzeImageRegion generateContent JSON_parse rev env base64Image p
    = (Rejected (newError "No response from model"), p1, [Invoke]).
Proof.
  intros Hkey Hcall Hempty. unfold analyzeImageRegion.
  apply String.eqb_neq in Hkey. rewrite Hkey.
  apply retry_terminal; [|reflexivity].
  unfold awaitThen. rewrite Hcall. unfold truthy in Hempty.
  destruct (text response) as [t|]; [|reflexivity].
  destruct (String.eqb t ""); [reflexivity | discriminate].
Qed.

End ServiceResults.


Lemma resolved_texts_are_not_empty_witness :
  settlement (translateText (answering (Some "")) ServiceTs envWithKey "hello" 0%nat)
    = Resolved "Translation failed." /\
  "Translation failed." <> "".
Proof.
  assert (H : settlement (translateText (answering (Some "")) ServiceTs envWithKey "hello" 0%nat)
              = Resolved "Translation failed.") by reflexivity.
  split; [exact H|].
  exact (proj1 (resolved_texts_are_not_empty nat (answering (Some "")) ServiceTs envWithKey
                  "hello" 0%nat) "Translation failed." H).
Defined.

Lemma analyzeImageRegion_without_text_witness :
  apiKey ServiceTs envWithKey <> "" /\
  analyzeImageRegion (answering None) sampleParse ServiceTs envWithKey
    "data:image/png;base64,iVBORw0KGgo=" 0%nat
  = (Rejected (newError "No response from model"), 1%nat, [Invoke]).
Proof.
  assert (Hkey : apiKey ServiceTs envWithKey <> "") by discriminate.
  split; [exact Hkey|].
  exact (analyzeImageRegion_without_text nat (answering None) sampleParse ServiceTs envWithKey
           "data:image/png;base64,iVBORw0KGgo=" 0%nat 1%nat (mkResponse None None)
           Hkey eq_refl eq_refl).
Defined.

(* ------------------------------------------------------------------ *)
(** * Reading aloud *)
(* ------------------------------------------------------------------ *)

Section SpeechFacts.

Import Speech.

Variable P : Type.
Variable generateAudio : string -> string -> Op P (option string).
Variable AudioBuffer : Type.
Variable decodeAudio : string -> Outcome AudioBuffer.
Variable startPlayback : AudioBuffer -> bool.
Variable rev : Revision.
Variable env : Env.

(** X10.  Reading aloud.  While an audio is marked as playing, a request
    to play does nothing: no call to the provider, the mark stays.
    Otherwise, an answer without audio data makes [generateSpeech] fail
    with "No audio data generated" after one invocation and no wait, and
    the panel ends with no audio marked as playing, so that the next
    request goes through to the provider. *)
Theorem play_audio_guard_and_failure (text : string) (id : Z) (p p1 : P)
    (base64Audio : option string) :
  (forall audioPlayingId,
     isPlaying audioPlayingId = true ->
     handlePlayAudio generateAudio decodeAudio startPlayback rev env text id audioPlayingId p
     = (audioPlayingId, p, [])) /\
  (apiKey rev env <> "" ->
   generateAudio (apiKey rev env) text p = (Resolved base64Audio, p1) ->
   truthy base64Audio = false ->
   generateSpeech generateAudio decodeAudio rev env text p
     = (Rejected (newError "No audio data generated"), p1, [Invoke]) /\
   forall audioPlayingId,
     isPlaying audioPlayingId = false ->
     handlePlayAudio generateAudio decodeAudio startPlayback rev env text id audioPlayingId p
     = (None, p1, [Invoke])).
Proof.
  split.
  - intros audioPlayingId Hbusy. unfold handlePlayAudio. rewrite Hbusy. reflexivity.
  - intros Hkey Hcall Hempty.
    assert (Hs : generateSpeech generateAudio decodeAudio rev env text p
                 = (Rejected (newError "No audio data generated"), p1, [Invoke])).
    { unfold generateSpeech. apply String.eqb_neq in Hkey. rewrite Hkey.
      apply retry_terminal; [|reflexivity].
      unfold awaitThen. rewrite Hcall. unfold truthy in Hempty.
      destruct base64Audio as [data|]; [|reflexivity].
      destruct (String.eqb data ""); [reflexivity | discriminate]. }
    split; [exact Hs|].
    intros audioPlayingId Hidle. unfold handlePlayAudio. rewrite Hidle, Hs. reflexivity.
Qed.

End SpeechFacts.

Lemma play_audio_guard_and_failure_witness :
  Speech.isPlaying (Some 1700000000001) = true /\
  Speech.handlePlayAudio silentProvider (fun _ => Resolved tt) (fun _ => true)
    ServiceTs envWithKey "bonjour" 1700000000002 (Some 1700000000001) 0%nat
  = (Some 1700000000001, 0%nat, []) /\
  Speech.handlePlayAudio silentProvider (fun _ => Resolved tt) (fun _ => true)
    ServiceTs envWithKey "bonjour" 1700000000002 None 0%nat
  = (None, 1%nat, [Invoke]).
Proof.
  assert (Hbusy : Speech.isPlaying (Some 1700000000001) = true) by reflexivity.
  assert (Hkey : apiKey ServiceTs envWithKey <> "") by discriminate.
  pose proof (play_audio_guard_and_failure nat silentProvider unit (fun _ => Resolved tt)
                (fun _ => true) ServiceTs envWithKey "bonjour" 1700000000002 0%nat 1%nat None)
    as [Hguard Hfail].
  split; [exact Hbusy|]. split.
  - exact (Hguard _ Hbusy).
  - exact (proj2 (Hfail Hkey eq_refl eq_refl) None eq_refl).
Defined.

(* ------------------------------------------------------------------ *)
(** * More on the live session *)
(* ------------------------------------------------------------------ *)

Section LiveOutcome.

Import LiveAssistant AssistantLifecycle.

Variable P : Type.
Variable Handle : Type.
Variable liveConnect : string -> Op P Handle.
Variable rev : Revision.
Variable env : Env.

Lemma connect_outcome (this : LiveSession Handle) (p : P) :
  let after := connect liveConnect rev env this p in
  (exists final,
     reported (fst after) = reported this ++ ["Connecting..."; final] /\
     ((final = "Connected" /\
       exists h, liveConnect (apiKey rev env) p = (Resolved h, snd after) /\
                 session (fst after) = Some h) \/
      (final = "Connection Failed" /\
       (exists e, liveConnect (apiKey rev env) p = (Rejected e, snd after)) /\
       session (fst after) = session this) \/
      (final = "Error: Missing API Key" /\
       rev = Part000 /\ apiKey rev env = "" /\
       snd after = p /\ session (fst after) = session this))) /\
  session (disconnect (fst after)) = None /\
  reported (disconnect (fst after)) = reported (fst after) ++ ["Disconnected"].
Proof.
  intros after. split; [|split; reflexivity]. subst after. unfold connect.
  assert (Hask :
    let r := match liveConnect (apiKey rev env) p with
             | (Resolved h, p1) =>
                 (onStatusChange "Connected"
                    (mkLiveSession (Some h)
                       (reported (onStatusChange "Connecting..." this))), p1)
             | (Rejected _, p1) =>
                 (onStatusChange "Connection Failed" (onStatusChange "Connecting..." this), p1)
             end in
    exists final,
      reported (fst r) = reported this ++ ["Connecting..."; final] /\
      ((final = "Connected" /\
        exists h, liveConnect (apiKey rev env) p = (Resolved h, snd r) /\
                  session (fst r) = Some h) \/
       (final = "Connection Failed" /\
        (exists e, liveConnect (apiKey rev env) p = (Rejected e, snd r)) /\
        session (fst r) = session this) \/
       (final = "Error: Missing API Key" /\
        rev = Part000 /\ apiKey rev env = "" /\
        snd r = p /\ session (fst r) = session this))).
  { destruct (liveConnect (apiKey rev env) p) as [[h | e] p1]; cbv zeta;
      cbn [fst snd onStatusChange reported session]; rewrite <- app_assoc.
    - exists "Connected". split; [reflexivity|]. left. split; [reflexivity|].
      exists h. split; reflexivity.
    - exists "Connection Failed". split; [reflexivity|]. right. left.
      split; [reflexivity|]. split; [exists e; reflexivity | reflexivity]. }
  destruct rev eqn:Hrev.
  - exact Hask.
  - destruct (String.eqb_spec (apiKey Part000 env) "") as [Hkey | Hkey]; [|exact Hask].
    cbn [fst snd onStatusChange reported session]. rewrite <- app_assoc.
    exists "Error: Missing API Key". split; [reflexivity|]. right. right.
    repeat split. exact Hkey.
Qed.

(** X11.  One [connect()] reports "Connecting..." and then exactly one
    more status.  It is "Connected" when the provider granted a session,
    whose handle is then stored; "Connection Failed" when the provider
    refused, the stored handle staying as it was; and, in the later
    revision without a key, "Error: Missing API Key", the provider not
    having been asked.  After [disconnect()] no handle is stored and the
    last status is "Disconnected". *)
Theorem connect_reports_its_outcome (this : LiveSession Handle) (p : P) :
  let after := connect liveConnect rev env this p in
  (exists final,
     reported (fst after) = reported this ++ ["Connecting..."; final] /\
     ((final = "Connected" /\
       exists h, liveConnect (apiKey rev env) p = (Resolved h, snd after) /\
                 session (fst after) = Some h) \/
      (final = "Connection Failed" /\
       (exists e, liveConnect (apiKey rev env) p = (Rejected e, snd after)) /\
       session (fst after) = session this) \/
      (final = "Error: Missing API Key" /\
       rev = Part000 /\ apiKey rev env = "" /\
       snd after = p /\ session (fst after) = session this))) /\
  session (disconnect (fst after)) = None /\
  reported (disconnect (fst after)) = reported (fst after) ++ ["Disconnected"].
Proof.
  exact (connect_outcome this p).
Qed.

(** X12.  Opening the assistant from its initial state: afterwards the
    panel shows "connected" exactly when the controller it holds has a
    session handle, and the status line is the last status the controller
    reported. *)
Theorem opened_assistant_shows_session (p : P) :
  let opened := fst (effect liveConnect rev env true (initialAssistant Handle) p) in
  isConnected opened = holdsSession opened /\
  (isConnected opened = true <-> status opened = "Connected") /\
  (exists controller,
     liveSessionRef opened = Some controller /\
     controller = fst (connect liveConnect rev env (newLiveSession Handle) p) /\
     last (reported controller) "Idle" = status opened).
Proof.
  cbv zeta. unfold effect, initialAssistant. cbn [liveSessionRef].
  destruct (connect_outcome (newLiveSession Handle) p)
    as [[final (Hrep & Hcases)] _].
  destruct (connect liveConnect rev env (newLiveSession Handle) p) as [controller p1] eqn:Hc.
  cbn [fst snd] in *. cbn [newLiveSession reported session app] in Hrep, Hcases.
  rewrite Hrep. cbn [deliver fold_left liveSessionRef isConnected status fst].
  unfold holdsSession. cbn [liveSessionRef last].
  destruct Hcases as [(-> & h & _ & Hs) | [(-> & _ & Hs) | (-> & _ & _ & _ & Hs)]];
    rewrite Hs; cbn;
    (split; [reflexivity|]);
    (split; [split; intros; first [reflexivity | discriminate]|]);
    exists controller; (split; [reflexivity|]); (split; [reflexivity|]);
    rewrite Hrep; reflexivity.
Qed.

(** X13.  Closing does not end the session: the render in which [isOpen]
    turns false changes neither the assistant nor the provider, so a held
    controller stays held and connected.  A held controller is dropped,
    with no call to the provider about it, in the render in which
    [isOpen] turns true again, which then connects a new controller. *)
Theorem closing_keeps_the_session (a : Assistant Handle) (p : P) :
  rerender liveConnect rev env true false a p = (a, p) /\
  (forall held,
     liveSessionRef a = Some held ->
     rerender liveConnect rev env false true a p
     = effect liveConnect rev env true (initialAssistant Handle) p /\
     snd (rerender liveConnect rev env false true a p)
     = snd (connect liveConnect rev env (newLiveSession Handle) p)).
Proof.
  split.
  - unfold rerender, cleanup, effect. destruct (liveSessionRef a); reflexivity.
  - intros held Href.
    assert (H : rerender liveConnect rev env false true a p
                = effect liveConnect rev env true (initialAssistant Handle) p).
    { unfold rerender, cleanup. rewrite Href. reflexivity. }
    split; [exact H|]. rewrite H. unfold effect, initialAssistant. cbn [liveSessionRef].
    destruct (connect liveConnect rev env (newLiveSession Handle) p). reflexivity.
Qed.

End LiveOutcome.

Lemma closing_keeps_the_session_witness :
  let opened := fst (LiveAssistant.effect liveProvider ServiceTs envWithKey true
                       (LiveAssistant.initialAssistant nat) 0%nat) in
  AssistantLifecycle.holdsSession opened = true /\
  AssistantLifecycle.rerender liveProvider ServiceTs envWithKey true false opened 1%nat
    = (opened, 1%nat) /\
  snd (AssistantLifecycle.rerender liveProvider ServiceTs envWithKey false true opened 1%nat)
    = 2%nat.
Proof.
  intros opened. split; [reflexivity|]. split.
  - exact (proj1 (closing_keeps_the_session nat nat liveProvider ServiceTs envWithKey opened 1%nat)).
  - exact (eq_trans
             (proj2 (proj2 (closing_keeps_the_session nat nat liveProvider ServiceTs envWithKey
                              opened 1%nat) _ eq_refl))
             eq_refl).
Defined.

(* ------------------------------------------------------------------ *)
(** * Text capture *)
(* ------------------------------------------------------------------ *)

Section TextCaptureFacts.

Import PDFViewer TextCapture PointerCounts.

Variable dom : Dom.

(** X14.  Selecting and confirming.  A mouse-up outside the tooltip that
    leaves a non-blank selection anchored in the page, followed by a press
    on the tooltip, emits exactly one Text artifact whose content is the
    selected string as it is, and hides the tooltip.  A mouse-up outside
    the tooltip that leaves no such selection hides the tooltip, so that
    nothing can be confirmed and nothing is emitted. *)
Theorem text_selection_then_confirm (st : TextState) (e : DocumentMouseUp) (now : Z) :
  showTextTooltip st && targetInTooltip e = false ->
  let result := textGesture textMode dom st [MouseUpOnDocument e; MouseDownOnTooltip now] in
  showTextTooltip (fst result) = false /\
  (qualifies dom e = true ->
   exists selection,
     getSelection e = Some selection /\
     snd result = [Types.Selection.mkSelection Types.text (toString selection) now]) /\
  (qualifies dom e = false -> snd result = []).
Proof.
  intros Hout. cbv zeta.
  cbn [textGesture textDispatch]. unfold handleDocumentMouseUp, qualifies. rewrite Hout.
  destruct (getSelection e) as [selection|]; [|repeat split; discriminate].
  destruct (pageRef dom) as [page|];
    [|destruct (negb (String.eqb (trim (toString selection)) "")); repeat split; discriminate].
  destruct (negb (String.eqb (trim (toString selection)) "")); [|repeat split; discriminate].
  destruct (anchorInPage selection); cbn; [|repeat split; discriminate].
  split; [reflexivity|]. split; [|discriminate].
  intros _. exists selection. split; reflexivity.
Qed.

(** What is confirmed was recorded by a qualifying mouse-up. *)
Lemma textGesture_emits_recorded (Q : string -> Prop) (mode : Mode)
    (evs : list TextEvent) :
  (forall e selection,
     In (MouseUpOnDocument e) evs -> qualifies dom e = true ->
     getSelection e = Some selection -> Q (toString selection)) ->
  forall st,
    (showTextTooltip st = true -> Q (selectedText st)) ->
    Forall (fun sel => Types.Selection.type sel = Types.text /\
                       Q (Types.Selection.content sel))
      (snd (textGesture mode dom st evs)) /\
    (List.length (snd (textGesture mode dom st evs)) <= confirmations evs)%nat /\
    (mode = box -> snd (textGesture mode dom st evs) = []).
Proof.
  induction evs as [|ev evs IH]; intros Hevs st Hst.
  - cbn. repeat split; [constructor | lia].
  - assert (Hevs' : forall e selection,
              In (MouseUpOnDocument e) evs -> qualifies dom e = true ->
              getSelection e = Some selection -> Q (toString selection)).
    { intros e selection Hin. apply Hevs. right. exact Hin. }
    cbn [textGesture]. destruct ev as [e | now].
    + cbn [textDispatch].
      assert (Hst1 : showTextTooltip (handleDocumentMouseUp mode dom e st) = true ->
                     Q (selectedText (handleDocumentMouseUp mode dom e st))).
      { pose proof (Hevs e) as He. specialize (fun s => He s (or_introl eq_refl)).
        unfold handleDocumentMouseUp, qualifies in *.
        destruct mode; [|exact Hst].
        destruct (showTextTooltip st && targetInTooltip e); [exact Hst|].
        destruct (getSelection e) as [selection|]; [|discriminate].
        destruct (negb (String.eqb (trim (toString selection)) "")); [|discriminate].
        destruct (pageRef dom) as [page|]; [|discriminate].
        destruct (anchorInPage selection); [|discriminate].
        intros _. exact (He selection eq_refl eq_refl). }
      destruct (IH Hevs' _ Hst1) as (Hall & Hlen & Hbox).
      destruct (textGesture mode dom (handleDocumentMouseUp mode dom e st) evs) as [st2 out2].
      cbn [snd app] in *. unfold confirmations in *. cbn [filter]. repeat split; assumption.
    + cbn [textDispatch]. destruct mode.
      * destruct (showTextTooltip st) eqn:Hshow.
        -- cbn [handleTooltipMouseDown].
           destruct (IH Hevs' (hideTooltip st)) as (Hall & Hlen & _); [discriminate|].
           destruct (textGesture textMode dom (hideTooltip st) evs) as [st2 out2].
           cbn [snd app] in *. unfold confirmations in *. cbn [filter List.length].
           split; [|split; [lia | discriminate]].
           constructor; [|exact Hall]. split; [reflexivity | exact (Hst eq_refl)].
        -- destruct (IH Hevs' st) as (Hall & Hlen & _);
             [intros H; rewrite Hshow in H; discriminate|].
           destruct (textGesture textMode dom st evs) as [st2 out2].
           cbn [snd app] in *. unfold confirmations in *. cbn [filter List.length].
           split; [exact Hall|]. split; [lia | discriminate].
      * destruct (IH Hevs' st Hst) as (Hall & Hlen & Hbox).
        destruct (textGesture box dom st evs) as [st2 out2].
        cbn [snd app] in *. unfold confirmations in *. cbn [filter List.length].
        split; [exact Hall|]. split; [lia | exact Hbox].
Qed.

(** X15.  Whatever happens after the page is mounted, text capture emits
    only Text artifacts, at most one per press on the tooltip, each
    carrying the non-blank string of a selection that a document mouse-up
    found anchored in the page; in Box mode it emits nothing. *)
Theorem text_capture_emits_recorded_selections (mode : Mode) (evs : list TextEvent) :
  let out := snd (textGesture mode dom initialTextState evs) in
  Forall (fun sel =>
            Types.Selection.type sel = Types.text /\
            trim (Types.Selection.content sel) <> "" /\
            exists e selection,
              In (MouseUpOnDocument e) evs /\
              getSelection e = Some selection /\
              anchorInPage selection = true /\
              toString selection = Types.Selection.content sel) out /\
  (List.length out <= confirmations evs)%nat /\
  (mode = box -> out = []).
Proof.
  cbv zeta.
  destruct (textGesture_emits_recorded
              (fun s => trim s <> "" /\
                        exists e selection,
                          In (MouseUpOnDocument e) evs /\
                          getSelection e = Some selection /\
                          anchorInPage selection = true /\
                          toString selection = s)
              mode evs) with (st := initialTextState) as (Hall & Hlen & Hbox).
  - intros e selection Hin Hq Hsel. unfold qualifies in Hq. rewrite Hsel in Hq.
    destruct (pageRef dom); [|discriminate].
    apply andb_true_iff in Hq as [Hblank Hanchor].
    apply negb_true_iff, String.eqb_neq in Hblank. split; [exact Hblank|].
    exists e, selection. repeat split; assumption.
  - discriminate.
  - split; [|split; assumption].
    eapply Forall_impl; [|exact Hall]. cbn beta. intros sel [Ht [Hb Hex]]. repeat split; assumption.
Qed.

End TextCaptureFacts.

Lemma text_selection_then_confirm_witness :
  TextCapture.qualifies renderedDom wordsSelected = true /\
  snd (TextCapture.textGesture PDFViewer.textMode renderedDom TextCapture.initialTextState
         [TextCapture.MouseUpOnDocument wordsSelected; TextCapture.MouseDownOnTooltip 1700000000003])
  = [Types.Selection.mkSelection Types.text "neural network" 1700000000003] /\
  snd (TextCapture.textGesture PDFViewer.textMode renderedDom TextCapture.initialTextState
         [TextCapture.MouseUpOnDocument nothingSelected; TextCapture.MouseDownOnTooltip 1700000000003])
  = [].
Proof.
  assert (Hq : TextCapture.qualifies renderedDom wordsSelected = true) by reflexivity.
  split; [exact Hq|]. split.
  - destruct (proj1 (proj2 (text_selection_then_confirm renderedDom TextCapture.initialTextState
                              wordsSelected 1700000000003 eq_refl)) Hq)
      as [selection [Hsel Hout]].
    injection Hsel as <-. exact Hout.
  - exact (proj2 (proj2 (text_selection_then_confirm renderedDom TextCapture.initialTextState
                           nothingSelected 1700000000003 eq_refl)) eq_refl).
Defined.

(* ------------------------------------------------------------------ *)
(** * More on box capture *)
(* ------------------------------------------------------------------ *)

Section BoxBounds.

Import PDFViewer PointerCounts.

(** One pointer event: it emits nothing, or it is a release in Box mode
    that ends a selection in progress and emits one Image artifact; and a
    selection is in progress afterwards only if it was before or the
    event is a press. *)
Lemma dispatch_cases (mode : Mode) (st : PageState) (ev : PointerEvent) :
  (snd (dispatch mode st ev) = [] \/
   exists dom url now,
     ev = MouseUp dom now /\ mode = box /\
     isSelecting st = true /\ isSelecting (fst (dispatch mode st ev)) = false /\
     (dragWidth st <? 10)%float = false /\ (dragHeight st <? 10)%float = false /\
     snd (dispatch mode st ev) = [Types.Selection.mkSelection Types.image url now]) /\
  (isSelecting (fst (dispatch mode st ev)) = true ->
   (isSelecting st = true /\ forall dom now, ev <> MouseUp dom now) \/
   (exists dom e, ev = MouseDown dom e) \/ mode = textMode).
Proof.
  destruct ev as [dom e | dom e | dom now |]; cbn [dispatch fst snd].
  - split; [left; reflexivity|]. intros _. right. left. exists dom, e. reflexivity.
  - split; [left; reflexivity|]. unfold handleMouseMove.
    destruct mode; [intros _; right; right; reflexivity|].
    destruct (isSelecting st) eqn:Hsel; [|rewrite Hsel; discriminate].
    intros _. left. split; [reflexivity | discriminate].
  - unfold handleMouseUp. destruct mode.
    { cbn [fst snd]. split; [left; reflexivity | intros _; right; right; reflexivity]. }
    destruct (isSelecting st) eqn:Hsel; cbn [negb].
    2:{ cbn [fst snd]. split; [left; reflexivity | rewrite Hsel; discriminate]. }
    fold (dragWidth st) (dragHeight st).
    destruct (dragWidth st <? 10)%float eqn:Hw; cbn [orb];
      [cbn [fst snd isSelecting]; split; [left; reflexivity | discriminate]|].
    destruct (dragHeight st <? 10)%float eqn:Hh;
      [cbn [fst snd isSelecting]; split; [left; reflexivity | discriminate]|].
    destruct (pageRef dom) as [page|];
      [|cbn [fst snd isSelecting]; split; [left; reflexivity | discriminate]].
    destruct (canvas page) as [cv|];
      [|cbn [fst snd isSelecting]; split; [left; reflexivity | discriminate]].
    destruct (captureRegion dom cv _ _ _ _) as [| | url];
      cbn [fst snd isSelecting]; (split; [|discriminate]);
      [left; reflexivity | left; reflexivity |].
    right. exists dom, url, now. repeat split; reflexivity.
  - split; [left; reflexivity | discriminate].
Qed.

Lemma gesture_bounds (mode : Mode) (evs : list PointerEvent) : forall st,
  let out := snd (gesture mode st evs) in
  Forall (fun sel => Types.Selection.type sel = Types.image) out /\
  (List.length out <= releases evs)%nat /\
  (mode = box ->
   List.length out <= (if isSelecting st then 1 else 0) + presses evs)%nat /\
  (mode = textMode -> out = []).
Proof.
  induction evs as [|ev evs IH]; intros st; cbv zeta.
  - cbn. repeat split; [constructor | lia | intros _; destruct (isSelecting st); lia].
  - cbn [gesture].
    destruct (dispatch_cases mode st ev) as [Hemit Hsel].
    destruct (dispatch mode st ev) as [st1 out1] eqn:Hd. cbn [fst snd] in Hemit, Hsel.
    specialize (IH st1). cbv zeta in IH. destruct IH as (Hall & Hrel & Hpress & Htext).
    destruct (gesture mode st1 evs) as [st2 out2]. cbn [snd] in *.
    unfold releases, presses in *.
    destruct Hemit as [-> | (dom & url & now & -> & Hmode & Hst & Hst1 & _ & _ & ->)].
    + cbn [app]. split; [exact Hall|]. split; [|split; [|exact Htext]].
      * destruct ev; cbn [filter List.length]; lia.
      * intros Hbox. specialize (Hpress Hbox).
        destruct (isSelecting st1) eqn:Hs1.
        -- destruct (Hsel eq_refl) as [[Hs _] | [(dom & e & ->) | Ht]].
           ++ rewrite Hs. destruct ev; cbn [filter List.length]; lia.
           ++ cbn [filter List.length]. destruct (isSelecting st); lia.
           ++ congruence.
        -- destruct ev; cbn [filter List.length]; destruct (isSelecting st); lia.
    + cbn [app List.length filter]. split; [constructor; [reflexivity | exact Hall]|].
      split; [lia|]. split; [|congruence].
      intros Hbox. specialize (Hpress Hbox). rewrite Hst1 in Hpress. rewrite Hst. lia.
Qed.

(** X16.  Whatever the pointer does after the page is mounted, box capture
    emits only Image artifacts, at most one per press and at most one per
    release; in Text mode it emits nothing. *)
Theorem box_capture_emission_bounds (mode : Mode) (evs : list PointerEvent) :
  let out := snd (gesture mode initialPageState evs) in
  Forall (fun sel => Types.Selection.type sel = Types.image) out /\
  (List.length out <= releases evs)%nat /\
  (mode = box -> List.length out <= presses evs)%nat /\
  (mode = textMode -> out = []).
Proof.
  destruct (gesture_bounds mode evs initialPageState) as (Hall & Hrel & Hpress & Htext).
  cbv zeta. repeat split; assumption.
Qed.

End BoxBounds.

(* ------------------------------------------------------------------ *)
(** * Page navigation *)
(* ------------------------------------------------------------------ *)

Section Navigation.

Import PageNav.

Lemma navStep_in_range (st : NavState) (ev : NavEvent) :
  1 <= pageNumber (navStep st ev) <= Z.max 1 (numPages (navStep st ev)).
Proof.
  destruct ev as [n | offset]; cbn [navStep onDocumentLoadSuccess changePage pageNumber numPages];
    lia.
Qed.

(** X17.  The page number never leaves the document: after the viewer is
    mounted and through any loads and page changes, by any offsets, it is
    at least 1 and at most the number of pages (1 while no page is known).
    In such a state an enabled button moves by exactly one page and a
    disabled one, were it pressed, would move nowhere. *)
Theorem page_number_stays_in_range (evs : list NavEvent) :
  let st := navigate evs initialNav in
  1 <= pageNumber st <= Z.max 1 (numPages st) /\
  pageNumber (changePage 1 st) = (if nextDisabled st then pageNumber st else pageNumber st + 1) /\
  pageNumber (changePage (-1) st)
    = (if previousDisabled st then pageNumber st else pageNumber st - 1).
Proof.
  cbv zeta.
  assert (Hinv : 1 <= pageNumber (navigate evs initialNav)
                 <= Z.max 1 (numPages (navigate evs initialNav))).
  { unfold navigate.
    assert (H0 : forall st, 1 <= pageNumber st <= Z.max 1 (numPages st) ->
                 1 <= pageNumber (fold_left navStep evs st)
                 <= Z.max 1 (numPages (fold_left navStep evs st))).
    { induction evs as [|ev evs IH]; intros st Hst; [exact Hst|].
      cbn [fold_left]. apply IH. apply navStep_in_range. }
    apply H0. cbn. lia. }
  split; [exact Hinv|].
  unfold changePage, nextDisabled, previousDisabled. cbn [pageNumber].
  set (st := navigate evs initialNav) in *.
  destruct (Z.geb_spec (pageNumber st) (numPages st)), (Z.leb_spec (pageNumber st) 1);
    split; lia.
Qed.

End Navigation.

(* ------------------------------------------------------------------ *)
(** * More on the history pipeline *)
(* ------------------------------------------------------------------ *)

Section PanelMore.

Import Types TranslationPanel PanelView.

Lemma updateById_commute (a b : Z) (f g : TranslationResult -> TranslationResult)
    (prev : list TranslationResult) :
  keepsId f -> keepsId g ->
  (forall item, id item = a -> id item = b -> f (g item) = g (f item)) ->
  updateById a f (updateById b g prev) = updateById b g (updateById a f prev).
Proof.
  intros Hf Hg Hfg. unfold updateById. rewrite !map_map. apply map_ext. intros item.
  destruct (id item =? b) eqn:Hb; destruct (id item =? a) eqn:Ha;
    rewrite ?Hg, ?Hf, ?Ha, ?Hb; try reflexivity.
  apply Hfg; apply Z.eqb_eq; assumption.
Qed.

(** X18.  Settlements commute.  Two runs with different ids can settle in
    either order with the same panel state as the result; and the
    settlement of a deep dive commutes with the settlement of a
    translation even for the same id, the two writing different fields. *)
Theorem settlements_commute (st : PanelState) :
  (forall a b ra rb,
     Selection.id a <> Selection.id b ->
     settle b rb (settle a ra st) = settle a ra (settle b rb st)) /\
  (forall selectionData r target rd,
     deepDiveSettle target rd (settle selectionData r st)
     = settle selectionData r (deepDiveSettle target rd st)).
Proof.
  split.
  - intros a b ra rb Hab.
    destruct ra as [[oa ta] | ea], rb as [[ob tb] | eb];
      unfold settle, setLoading, setHistory;
      cbn [history loading activeId deepDiveLoadingId];
      (rewrite updateById_commute;
       [reflexivity | intros item; reflexivity | intros item; reflexivity
       | intros item H1 H2; congruence]).
  - intros sel r target rd.
    destruct r as [[o t] | e], rd as [[expl srcs] | ed];
      unfold settle, deepDiveSettle, setLoading, setHistory, setDeepDiveLoadingId;
      cbn [history loading activeId deepDiveLoadingId];
      try reflexivity;
      (rewrite updateById_commute;
       [reflexivity | intros item; reflexivity | intros item; reflexivity
       | intros item _ _; reflexivity]).
Qed.

Lemma settled_record (selectionData : Selection.SelectionData) (e : Error) (st : PanelState)
    (item : TranslationResult) :
  In item (history (settle selectionData (Rejected e) st)) ->
  id item = Selection.id selectionData ->
  translatedText item = errorMessageFor e.
Proof.
  cbn [settle setLoading setHistory history]. unfold updateById.
  intros Hin Hid. apply in_map_iff in Hin as [x [Hx _]].
  destruct (Z.eqb_spec (id x) (Selection.id selectionData)) as [Heq | Hne].
  - subst item. reflexivity.
  - subst item. contradiction.
Qed.

(** X19.  A failed run is shown as a failure.  Whatever the error, the
    message written into the record contains "failed" or "limit", the two
    words the panel looks for: the record is rendered in the error style
    and offers neither the toolbar nor the Explain button.  The same holds
    for the text "Translation failed." that [translateText] resolves with
    when the answer has no text. *)
Theorem failed_run_is_shown_as_failure (selectionData : Selection.SelectionData)
    (e : Error) (st : PanelState) :
  (forall item,
     In item (history (settle selectionData (Rejected e) st)) ->
     id item = Selection.id selectionData ->
     looksFailed item = true /\ showsToolbar item = false /\ offersExplain item = false) /\
  (forall item,
     In item (history (settle selectionData
                         (Resolved (Str (Selection.content selectionData),
                                    Str "Translation failed.")) st)) ->
     id item = Selection.id selectionData ->
     looksFailed item = true).
Proof.
  split.
  - intros item Hin Hid.
    unfold offersExplain, showsToolbar, looksFailed, failureTest, toolbarTest.
    rewrite (settled_record selectionData e st item Hin Hid).
    unfold errorMessageFor.
    destruct (messageIncludes e "429" || messageIncludes e "quota" ||
              messageIncludes e "exhausted"); repeat split.
  - cbn [settle setLoading setHistory history]. unfold updateById.
    intros item Hin Hid. apply in_map_iff in Hin as [x [Hx _]].
    destruct (Z.eqb_spec (id x) (Selection.id selectionData)) as [Heq | Hne].
    + subst item. reflexivity.
    + subst item. contradiction.
Qed.

(** X20.  The loading flag is shared.  When a second selection arrives
    before the first has settled, the first record loses its spinner at
    once, the active id having moved on; and when the first then settles,
    the loading flag is cleared for the panel, so the second record, still
    pending on top of the history, shows no spinner either. *)
Theorem overlapping_runs_share_loading (a b : Selection.SelectionData) (nowA nowB : Z)
    (r : Outcome (Text * Text)) (st : PanelState) :
  Selection.id a <> Selection.id b ->
  let both := run [Arrive a nowA; Arrive b nowB] st in
  let after := run [Arrive a nowA; Arrive b nowB; Settle a r] st in
  showsSpinner both (newEntry b nowB) = true /\
  showsSpinner both (newEntry a nowA) = false /\
  hd_error (history after) = Some (newEntry b nowB) /\
  translatedText (newEntry b nowB) = "" /\
  loading after = false /\
  showsSpinner after (newEntry b nowB) = false.
Proof.
  intros Hab. cbv zeta. unfold run. cbn [fold_left step].
  assert (Hba : (Selection.id b =? Selection.id a) = false) by (apply Z.eqb_neq; congruence).
  assert (Hab' : (Selection.id a =? Selection.id b) = false) by (apply Z.eqb_neq; exact Hab).
  split; [|split; [|split; [|split; [|split]]]].
  - unfold showsSpinner, arrive. cbn. rewrite Z.eqb_refl. reflexivity.
  - unfold showsSpinner, arrive. cbn. rewrite Hab'. reflexivity.
  - destruct r as [[o t] | e]; cbn [settle arrive setLoading setHistory setActiveId history
      updateById map hd_error newEntry id]; rewrite Hba; reflexivity.
  - reflexivity.
  - destruct r as [[o t] | e]; reflexivity.
  - unfold showsSpinner. destruct r as [[o t] | e]; reflexivity.
Qed.

End PanelMore.

Lemma settlements_commute_witness :
  let st := TranslationPanel.run
              [TranslationPanel.Arrive textSelection 10; TranslationPanel.Arrive imageSelection 20]
              TranslationPanel.emptyPanel in
  Types.Selection.id textSelection <> Types.Selection.id imageSelection /\
  TranslationPanel.settle imageSelection (Rejected quotaError)
    (TranslationPanel.settle textSelection (Resolved (Str "neural network", Str "reseau")) st)
  = TranslationPanel.settle textSelection (Resolved (Str "neural network", Str "reseau"))
      (TranslationPanel.settle imageSelection (Rejected quotaError) st).
Proof.
  intros st.
  assert (H : Types.Selection.id textSelection <> Types.Selection.id imageSelection)
    by discriminate.
  split; [exact H|].
  exact (proj1 (settlements_commute st) textSelection imageSelection _ _ H).
Defined.

Lemma failed_run_is_shown_as_failure_witness :
  let st := TranslationPanel.arrive textSelection 10 TranslationPanel.emptyPanel in
  let item := TranslationPanel.withError "Translation failed. Please try again."
                (TranslationPanel.newEntry textSelection 10) in
  In item (TranslationPanel.history (TranslationPanel.settle textSelection (Rejected authError) st)) /\
  PanelView.offersExplain item = false.
Proof.
  intros st item.
  assert (Hin : In item (TranslationPanel.history
                           (TranslationPanel.settle textSelection (Rejected authError) st)))
    by (left; reflexivity).
  split; [exact Hin|].
  exact (proj2 (proj2 (proj1 (failed_run_is_shown_as_failure textSelection authError st)
                         item Hin eq_refl))).
Defined.

Lemma overlapping_runs_share_loading_witness :
  Types.Selection.id textSelection <> Types.Selection.id imageSelection /\
  PanelView.showsSpinner
    (TranslationPanel.run
       [TranslationPanel.Arrive textSelection 10; TranslationPanel.Arrive imageSelection 20;
        TranslationPanel.Settle textSelection (Resolved (Str "neural network", Str "reseau"))]
       TranslationPanel.emptyPanel)
    (TranslationPanel.newEntry imageSelection 20) = false.
Proof.
  assert (H : Types.Selection.id textSelection <> Types.Selection.id imageSelection)
    by discriminate.
  split; [exact H|].
  exact (proj2 (proj2 (proj2 (proj2 (proj2
           (overlapping_runs_share_loading textSelection imageSelection 10 20
              (Resolved (Str "neural network", Str "reseau")) TranslationPanel.emptyPanel H)))))).
Defined.

Section DeepDive.

Import Types TranslationPanel PanelView.

Variable P : Type.
Variable generateContent : string -> Request -> Op P Response.
Variable JSON_parse : string -> option Json.
Variable rev : Revision.
Variable env : Env.

(** X21.  A deep dive, run to its end: the loading mark is cleared and the
    records keep their places and ids.  If the explanation call is
    rejected the history is left exactly as it was.  If it resolves, every
    record under the target id carries the explanation, which is not
    empty, so the Explain button is no longer offered for it. *)
Theorem deep_dive_explains_once (input : string) (target : Z) (st : PanelState) (p : P) :
  let call := explainWithSearch generateContent rev env input p in
  let st' := fst (fst (handleDeepDive generateContent rev env input target st p)) in
  deepDiveLoadingId st' = None /\
  map id (history st') = map id (history st) /\
  (forall e, settlement call = Rejected e -> history st' = history st) /\
  (forall expl sources,
     settlement call = Resolved (expl, sources) ->
     forall item,
       In item (history st') -> id item = target ->
       explanation item = Some expl /\ searchSources item = Some sources /\
       offersExplain item = false).
Proof.
  cbv zeta. unfold handleDeepDive.
  pose proof (proj2 (service_texts_not_empty P generateContent rev env input p)) as Hne.
  destruct (explainWithSearch generateContent rev env input p) as [[r p1] tr].
  unfold settlement in *. cbn [fst snd] in *.
  split; [destruct r as [[expl srcs] | e]; reflexivity|]. split; [|split].
  - apply (updatesOnly_ids (targetOf (DeepDiveSettle target r))).
    apply (step_updatesOnly (deepDiveStart target st) (DeepDiveSettle target r)). discriminate.
  - intros e ->. reflexivity.
  - intros expl sources -> item Hin Hid.
    destruct (Hne expl sources eq_refl) as [Hexpl _].
    cbn [deepDiveSettle deepDiveStart setDeepDiveLoadingId setHistory history] in Hin.
    unfold updateById in Hin. apply in_map_iff in Hin as [x [Hx _]].
    destruct (Z.eqb_spec (id x) target) as [Heq | Hne'].
    + subst item. cbn [withExplanation explanation searchSources].
      split; [reflexivity|]. split; [reflexivity|].
      unfold offersExplain, lacksExplanation. cbn [withExplanation explanation truthy].
      apply String.eqb_neq in Hexpl. rewrite Hexpl. apply andb_false_r.
    + subst item. contradiction.
Qed.

(** X22.  What one selection can cost: a run of the pipeline asks the
    provider at most four times and waits at most 14000 ms in all. *)
Theorem pipeline_run_cost (selectionData : Selection.SelectionData) (now : Z)
    (st : PanelState) (p : P) :
  let tr := snd (processNewSelection generateContent JSON_parse rev env selectionData now st p) in
  (invocations tr <= 4)%nat /\ 0 <= totalWait tr <= 14000.
Proof.
  cbv zeta. unfold processNewSelection, request.
  assert (Hretry : forall T (operation : Op P T),
            (invocations (trace (retryOperation operation defaultRetries defaultDelay p)) <= 4)%nat /\
            0 <= totalWait (trace (retryOperation operation defaultRetries defaultDelay p)) <= 14000).
  { intros T operation.
    destruct (retry_wait_bound P T operation defaultRetries defaultDelay p) as [Hw Hi];
      [unfold defaultDelay; lia|].
    split; [exact Hi | exact Hw]. }
  destruct (Selection.type selectionData).
  - unfold bind, analyzeImageRegion.
    destruct (String.eqb (apiKey rev env) ""); [cbn; lia|].
    match goal with
    | |- context [retryOperation ?op _ _ _] => specialize (Hretry _ op)
    end.
    destruct (retryOperation _ defaultRetries defaultDelay p) as [[[a | e] p1] tr];
      unfold trace in Hretry; cbn [fst snd resolve] in *; rewrite ?app_nil_r; exact Hretry.
  - unfold bind, translateText.
    destruct (String.eqb (apiKey rev env) ""); [cbn; lia|].
    match goal with
    | |- context [retryOperation ?op _ _ _] => specialize (Hretry _ op)
    end.
    destruct (retryOperation _ defaultRetries defaultDelay p) as [[[a | e] p1] tr];
      unfold trace in Hretry; cbn [fst snd resolve] in *; rewrite ?app_nil_r; exact Hretry.
Qed.

End DeepDive.

Lemma deep_dive_explains_once_witness :
  let st := TranslationPanel.run
              [TranslationPanel.Arrive textSelection 10;
               TranslationPanel.Settle textSelection (Resolved (Str "neural network", Str "reseau"))]
              TranslationPanel.emptyPanel in
  let after := fst (fst (TranslationPanel.handleDeepDive (answering (Some "Un reseau.")) ServiceTs
                           envWithKey "neural network" 1700000000001 st 0%nat)) in
  settlement (explainWithSearch (answering (Some "Un reseau.")) ServiceTs envWithKey
                "neural network" 0%nat) = Resolved ("Un reseau.", []) /\
  Forall (fun item => PanelView.offersExplain item = false) (TranslationPanel.history after).
Proof.
  intros st after.
  assert (Hs : settlement (explainWithSearch (answering (Some "Un reseau.")) ServiceTs envWithKey
                             "neural network" 0%nat) = Resolved ("Un reseau.", []))
    by reflexivity.
  split; [exact Hs|].
  pose proof (proj2 (proj2 (proj2 (deep_dive_explains_once nat (answering (Some "Un reseau."))
                ServiceTs envWithKey "neural network" 1700000000001 st 0%nat)))
                "Un reseau." [] Hs) as H.
  constructor; [|constructor].
  exact (proj2 (proj2 (H _ (or_introl eq_refl) eq_refl))).
Defined.

(* ------------------------------------------------------------------ *)
(** * The stored history *)
(* ------------------------------------------------------------------ *)

Section StorageFacts.

Import Types TranslationPanel HistoryStorage.

Variable JSON_stringify : list TranslationResult -> string.
Variable JSON_parse : string -> option (list TranslationResult).

(** X23.  Reloading.  When the platform's JSON reads back the history it
    wrote, a panel mounted on what the save effect stored starts with that
    history, and idle.  A missing item, an empty one and one that does not
    parse all give an empty history. *)
Theorem reload_restores_saved_history (st : PanelState) :
  JSON_stringify (history st) <> "" ->
  JSON_parse (JSON_stringify (history st)) = Some (history st) ->
  mount JSON_parse (saveEffect JSON_stringify st) = mkPanel (history st) false None None /\
  (forall saved,
     saved = None \/ saved = Some "" \/ (exists s, saved = Some s /\ JSON_parse s = None) ->
     history (mount JSON_parse saved) = []).
Proof.
  intros Hne Hback. split.
  - unfold mount, saveEffect, loadHistory. apply String.eqb_neq in Hne.
    rewrite Hne, Hback. reflexivity.
  - intros saved [-> | [-> | [s [-> Hs]]]]; try reflexivity.
    unfold mount, loadHistory. cbn [history]. rewrite Hs.
    destruct (String.eqb s ""); reflexivity.
Qed.

(** X24.  Clearing.  A confirmed clear empties the history and removes
    the stored item; the save effect that follows stores the empty
    history, and, the platform's JSON reading back the empty history it
    writes, a reload before or after that effect starts empty.  A declined
    clear changes nothing. *)
Theorem clear_then_reload_is_empty (st : PanelState) (saved : option string) :
  JSON_parse (JSON_stringify []) = Some [] ->
  let cleared := clearHistory true st saved in
  history (fst cleared) = [] /\
  snd cleared = None /\
  history (mount JSON_parse (snd cleared)) = [] /\
  history (mount JSON_parse (saveEffect JSON_stringify (fst cleared))) = [] /\
  clearHistory false st saved = (st, saved).
Proof.
  intros Hback. cbv zeta. unfold clearHistory, setHistory. cbn [fst snd history].
  split; [reflexivity|]. split; [reflexivity|]. split; [reflexivity|].
  split; [|reflexivity].
  unfold mount, saveEffect, loadHistory. cbn [history]. rewrite Hback.
  destruct (String.eqb (JSON_stringify []) ""); reflexivity.
Qed.

End StorageFacts.

Lemma reload_restores_saved_history_witness :
  let st := TranslationPanel.settle textSelection
              (Resolved (Str "neural network", Str "reseau de neurones"))
              (TranslationPanel.arrive textSelection 1700000000100 TranslationPanel.emptyPanel) in
  TranslationPanel.history st = savedHistory /\
  sampleStringify (TranslationPanel.history st) = savedDocument /\
  sampleHistoryParse savedDocument = Some savedHistory /\
  HistoryStorage.mount sampleHistoryParse (HistoryStorage.saveEffect sampleStringify st)
  = TranslationPanel.mkPanel savedHistory false None None.
Proof.
  intros st.
  assert (Hne : sampleStringify (TranslationPanel.history st) <> "") by discriminate.
  split; [reflexivity|]. split; [reflexivity|]. split; [reflexivity|].
  exact (proj1 (reload_restores_saved_history sampleStringify sampleHistoryParse st Hne eq_refl)).
Defined.

Lemma clear_then_reload_is_empty_witness :
  let st := TranslationPanel.arrive textSelection 10 TranslationPanel.emptyPanel in
  emptyOnlyParse (emptyOnlyStringify []) = Some [] /\
  TranslationPanel.history
    (HistoryStorage.mount emptyOnlyParse
       (HistoryStorage.saveEffect emptyOnlyStringify
          (fst (HistoryStorage.clearHistory true st (Some "[...]"))))) = [].
Proof.
  intros st.
  assert (H : emptyOnlyParse (emptyOnlyStringify []) = Some []) by reflexivity.
  split; [exact H|].
  exact (proj1 (proj2 (proj2 (proj2
           (clear_then_reload_is_empty emptyOnlyStringify emptyOnlyParse st (Some "[...]") H))))).
Defined.
